(** * HomeworkClient: token refresh, paginated fetch and averaging

    A shallow embedding of [src/main.py].  The client object and the
    outside world (the authentication endpoint, the data endpoint, the
    clock, standard output) are threaded explicitly through a small
    state-and-exception monad; the [while] loop of [run] is driven by fuel.

    Modelling conventions.
    - A Python object coming out of [response.json()] is a [value].  JSON
      [null] and Python [None] are the same object, [VNone].
    - Python [int] and [float] numbers are exact rationals ([Q]); rounding
      of binary floating point and [OverflowError] are not modelled.  This
      touches line 110 only (the sum and the quotient): the comparisons of
      the loop are exact in Python too.
    - What the outside world answers is an [Env]: the n-th authentication
      exchange, the n-th page exchange (which may depend on the request
      sent) and the n-th reading of [time.time()]. *)

From Stdlib Require Import ZArith QArith List String Ascii Bool Lia Lqa
  DecimalString Sorted.
Import ListNotations.

Close Scope Q_scope.
Open Scope Z_scope.

(** ** Python values *)

#[warnings="-register-all"]
Inductive value : Type :=
| VNone
| VBool (b : bool)
| VNum (q : Q)
| VStr (s : string)
| VList (l : list value)
| VDict (kvs : list (string * value)).

(** The exceptions the program can meet that are not
    [requests.exceptions.RequestException]. *)
Inductive exn : Type :=
| KeyError (k : string)
| TypeError
| AttributeError.

Inductive res (A : Type) : Type :=
| Normal (a : A)
| Raise (e : exn).
Arguments Normal {A} a.
Arguments Raise {A} e.

(** A dict is kept as its items in insertion order; keys are distinct, so
    the first match is the entry. *)
Fixpoint lookup (k : string) (kvs : list (string * value)) : option value :=
  match kvs with
  | [] => None
  | (k', v) :: rest => if String.eqb k k' then Some v else lookup k rest
  end.

(** [v[k]] *)
Definition subscript (v : value) (k : string) : res value :=
  match v with
  | VDict kvs =>
      match lookup k kvs with
      | Some x => Normal x
      | None => Raise (KeyError k)
      end
  | _ => Raise TypeError
  end.

(** [v.get(k, default)]: only a dict has the method. *)
Definition dict_get (v : value) (k : string) (default : value) : res value :=
  match v with
  | VDict kvs =>
      match lookup k kvs with
      | Some x => Normal x
      | None => Normal default
      end
  | _ => Raise AttributeError
  end.

Definition Qzero_bool (q : Q) : bool := (Qnum q =? 0).

(** Truth value of an object, as tested by [if items:]. *)
Definition truthy (v : value) : bool :=
  match v with
  | VNone => false
  | VBool b => b
  | VNum q => negb (Qzero_bool q)
  | VStr s => negb (String.eqb s EmptyString)
  | VList l => match l with [] => false | _ => true end
  | VDict kvs => match kvs with [] => false | _ => true end
  end.

(** The numeric reading of an object in arithmetic and comparisons
    ([bool] is a subclass of [int]). *)
Definition as_number (v : value) : option Q :=
  match v with
  | VNum q => Some q
  | VBool true => Some 1%Q
  | VBool false => Some 0%Q
  | _ => None
  end.

Fixpoint chars (s : string) : list value :=
  match s with
  | EmptyString => []
  | String c rest => VStr (String c EmptyString) :: chars rest
  end.

(** What iterating over an object yields, as [list.extend] does. *)
Definition iterate (v : value) : res (list value) :=
  match v with
  | VList l => Normal l
  | VStr s => Normal (chars s)
  | VDict kvs => Normal (map (fun kv => VStr (fst kv)) kvs)
  | _ => Raise TypeError
  end.

(** ** The outside world *)

(** The outcome of one HTTP exchange as the program sees it: either a
    [RequestException] was raised (by [requests.post], by
    [raise_for_status] or while decoding the body), or a decoded body. *)
Inductive reply : Type :=
| TransportError
| Body (v : value).

(** A page request: the URL posted to, the token put in the
    [Authorization] header, and the two query parameters. *)
Record request : Type := mkRequest {
  rq_url : value;
  rq_token : value;
  rq_request_id : value;
  rq_page : Z
}.

Record Env : Type := mkEnv {
  auth_reply : nat -> reply;
  page_reply : nat -> request -> reply;
  clock : nat -> Q
}.

(** Lines written to standard output. *)
Inductive message : Type :=
| TokenNetworkError
| AttemptFailed (attempt : Z) (page : Z)
| PageFailedAfter (page : Z) (max_retries : nat)
| FailedToGetPage (page : Z)
| TooManyErrors
| City (c : value)
| AverageTemperature (formatted : string)
| NoDataReceived.

(** ** State: the client object and a log of its interactions *)

Record state : Type := mkState {
  (* the fields of HomeworkClient *)
  token : value;
  token_time : Q;
  city : value;
  req_id : value;
  url : value;
  all_items : list value;
  (* the log *)
  auth_posts : nat;               (* authentication exchanges so far *)
  page_posts : list request;      (* page requests so far, oldest first *)
  clock_reads : nat;              (* calls of time.time() so far *)
  sleeps : nat;                   (* calls of time.sleep(delay) so far *)
  page_calls : nat;               (* calls of get_page so far *)
  stdout : list message           (* lines printed so far, oldest first *)
}.

(** [HomeworkClient()] in a world where nothing has happened yet. *)
Definition init : state :=
  mkState VNone 0%Q VNone VNone VNone [] 0%nat [] 0%nat 0%nat 0%nat [].

Definition MAX_ERROR : Z := 5.
Definition TOKEN_TIMEOUT : Q := 55%Q.

(** ** The monad *)

Definition M (A : Type) : Type := state -> res A * state.

Definition ret {A} (a : A) : M A := fun st => (Normal a, st).

Definition bind {A B} (m : M A) (k : A -> M B) : M B :=
  fun st =>
    match m st with
    | (Normal a, st') => k a st'
    | (Raise e, st') => (Raise e, st')
    end.

Definition lift {A} (r : res A) : M A := fun st => (r, st).

Definition gets {A} (f : state -> A) : M A := fun st => (Normal (f st), st).

Definition modify (f : state -> state) : M unit := fun st => (Normal tt, f st).

Declare Scope py_scope.
Delimit Scope py_scope with py.
Notation "x <- m ;; k" := (bind m (fun x => k))
  (at level 61, m at next level, right associativity) : py_scope.
Notation "m ;; k" := (bind m (fun _ => k))
  (at level 61, right associativity) : py_scope.
Open Scope py_scope.

(** Field assignments. *)
Definition set_token (v : value) (st : state) : state :=
  mkState v (token_time st) (city st) (req_id st) (url st) (all_items st)
    (auth_posts st) (page_posts st) (clock_reads st) (sleeps st)
    (page_calls st) (stdout st).
Definition set_token_time (t : Q) (st : state) : state :=
  mkState (token st) t (city st) (req_id st) (url st) (all_items st)
    (auth_posts st) (page_posts st) (clock_reads st) (sleeps st)
    (page_calls st) (stdout st).
Definition set_city (v : value) (st : state) : state :=
  mkState (token st) (token_time st) v (req_id st) (url st) (all_items st)
    (auth_posts st) (page_posts st) (clock_reads st) (sleeps st)
    (page_calls st) (stdout st).
Definition set_req_id (v : value) (st : state) : state :=
  mkState (token st) (token_time st) (city st) v (url st) (all_items st)
    (auth_posts st) (page_posts st) (clock_reads st) (sleeps st)
    (page_calls st) (stdout st).
Definition set_url (v : value) (st : state) : state :=
  mkState (token st) (token_time st) (city st) (req_id st) v (all_items st)
    (auth_posts st) (page_posts st) (clock_reads st) (sleeps st)
    (page_calls st) (stdout st).
Definition set_all_items (l : list value) (st : state) : state :=
  mkState (token st) (token_time st) (city st) (req_id st) (url st) l
    (auth_posts st) (page_posts st) (clock_reads st) (sleeps st)
    (page_calls st) (stdout st).

(** Log updates. *)
Definition log_auth_post (st : state) : state :=
  mkState (token st) (token_time st) (city st) (req_id st) (url st)
    (all_items st) (S (auth_posts st)) (page_posts st) (clock_reads st)
    (sleeps st) (page_calls st) (stdout st).
Definition log_page_post (rq : request) (st : state) : state :=
  mkState (token st) (token_time st) (city st) (req_id st) (url st)
    (all_items st) (auth_posts st) (page_posts st ++ [rq]) (clock_reads st)
    (sleeps st) (page_calls st) (stdout st).
Definition log_clock_read (st : state) : state :=
  mkState (token st) (token_time st) (city st) (req_id st) (url st)
    (all_items st) (auth_posts st) (page_posts st) (S (clock_reads st))
    (sleeps st) (page_calls st) (stdout st).
Definition log_sleep (st : state) : state :=
  mkState (token st) (token_time st) (city st) (req_id st) (url st)
    (all_items st) (auth_posts st) (page_posts st) (clock_reads st)
    (S (sleeps st)) (page_calls st) (stdout st).
Definition log_page_call (st : state) : state :=
  mkState (token st) (token_time st) (city st) (req_id st) (url st)
    (all_items st) (auth_posts st) (page_posts st) (clock_reads st)
    (sleeps st) (S (page_calls st)) (stdout st).
Definition log_print (m : message) (st : state) : state :=
  mkState (token st) (token_time st) (city st) (req_id st) (url st)
    (all_items st) (auth_posts st) (page_posts st) (clock_reads st)
    (sleeps st) (page_calls st) (stdout st ++ [m]).

Definition print (m : message) : M unit := modify (log_print m).

Definition is_none (v : value) : bool :=
  match v with VNone => true | _ => false end.

(** ** Printing a number with three decimals *)

Definition decimal (z : Z) : string :=
  NilZero.string_of_uint (N.to_uint (Z.to_N z)).

Definition pad3 (z : Z) : string :=
  ((if (z <? 10)%Z then "00" else if (z <? 100)%Z then "0" else "") ++ decimal z)%string.

(** The thousandths of [|q|], rounded half to even. *)
Definition round_thousandths (q : Q) : Z :=
  let a := Z.abs (Qnum q) * 1000 in
  let d := Z.pos (Qden q) in
  let k := a / d in
  let r := a mod d in
  if d <? 2 * r then k + 1
  else if (d =? 2 * r) && Z.odd k then k + 1
  else k.

(** [f"{q:.3f}"] for a number whose exact value is [q].  Python formats
    the double it holds; for a quotient that is not exact in binary the
    third decimal can differ from the one given here. *)
Definition format_3f (q : Q) : string :=
  let k := round_thousandths q in
  ((if (Qnum q <? 0)%Z then "-" else "") ++
   decimal (k / 1000)%Z ++ "." ++ pad3 (k mod 1000)%Z)%string.

(** ** The program *)

Section Program.

Variable env : Env.

(** [time.time()] *)
Definition time : M Q :=
  fun st => (Normal (clock env (clock_reads st)), log_clock_read st).

(** [time.sleep(delay)] *)
Definition sleep : M unit := modify log_sleep.

(** The exchange [requests.post(AUTHENTICATION_URL).json()]. *)
Definition post_auth : M reply :=
  fun st => (Normal (auth_reply env (auth_posts st)), log_auth_post st).

(** The exchange [requests.post(self.url, headers, params)] followed by
    [raise_for_status()] and [json()].  The URL is read from the object at
    the time of the call.  With [self.url] still [None], requests refuses
    the URL with [MissingSchema], a [RequestException], before anything is
    sent. *)
Definition post_page (tok rid : value) (page : Z) : M reply :=
  fun st =>
    let rq := mkRequest (url st) tok rid page in
    let r := if is_none (url st) then TransportError
             else page_reply env (List.length (page_posts st)) rq in
    (Normal r, log_page_post rq st).

Definition get_token : M unit :=
  r <- post_auth ;;
  match r with
  | Body auth_info =>
      tok <- lift (subscript auth_info "token") ;;
      modify (set_token tok) ;;
      now <- time ;;
      modify (set_token_time now) ;;
      c <- lift (subscript auth_info "dataset") ;;
      modify (set_city c) ;;
      rid <- lift (subscript auth_info "request_id") ;;
      modify (set_req_id rid) ;;
      u <- lift (subscript auth_info "data_url") ;;
      modify (set_url u)
  | TransportError =>
      print TokenNetworkError ;;
      modify (set_token VNone)
  end.

Definition validate_token : M unit :=
  tok <- gets token ;;
  if is_none tok then get_token
  else
    now <- time ;;
    issued <- gets token_time ;;
    if Qle_bool TOKEN_TIMEOUT (now - issued)%Q then get_token else ret tt.

(** The [for attempt in range(1, max_retries + 1)] loop of [get_page],
    entered at [attempt] with [remaining] iterations to go.  Falling out of
    the loop returns [None]. *)
Fixpoint attempts (tok rid : value) (page : Z) (max_retries : nat)
    (remaining : nat) (attempt : Z) : M (option (value * value)) :=
  match remaining with
  | O => ret None
  | S remaining' =>
      r <- post_page tok rid page ;;
      match r with
      | Body data =>
          items <- lift (dict_get data "items" (VList [])) ;;
          total <- lift (dict_get data "total_pages" (VNum 1%Q)) ;;
          ret (Some (items, total))
      | TransportError =>
          print (AttemptFailed attempt page) ;;
          if attempt <? Z.of_nat max_retries then
            sleep ;;
            attempts tok rid page max_retries remaining' (attempt + 1)
          else
            print (PageFailedAfter page max_retries) ;;
            ret (Some (VList [], VNum 1%Q))
      end
  end.

Definition get_page (page_number : Z) (max_retries : nat)
    : M (option (value * value)) :=
  modify log_page_call ;;
  validate_token ;;
  rid <- gets req_id ;;
  tok <- gets token ;;
  attempts tok rid page_number max_retries max_retries 1.

(** The local variables of [run]. *)
Record locals : Type := mkLocals {
  current_page : Z;
  total_pages : value;
  error_counter : Z
}.

(** [current_page <= total_pages] *)
Definition page_le (p : Z) (total : value) : res bool :=
  match as_number total with
  | Some q => Normal (Qle_bool (inject_Z p) q)
  | None => Raise TypeError
  end.

(** [items, total_pages = ...] *)
Definition unpack (r : option (value * value)) : res (value * value) :=
  match r with
  | Some p => Normal p
  | None => Raise TypeError
  end.

(** [self.all_items.extend(items)] *)
Definition extend (items : value) : M unit :=
  l <- lift (iterate items) ;;
  modify (fun st => set_all_items (all_items st ++ l) st).

(** One pass through the body of the [while] loop; the flag tells whether
    it left through [break]. *)
Definition loop_body (ls : locals) : M (locals * bool) :=
  r <- get_page (current_page ls) 3 ;;
  p <- lift (unpack r) ;;
  let (items, total) := p in
  ls' <- (if truthy items then
            extend items ;;
            ret (mkLocals (current_page ls + 1) total 0)
          else
            print (FailedToGetPage (current_page ls)) ;;
            ret (mkLocals (current_page ls + 1) total (error_counter ls + 1))) ;;
  if MAX_ERROR <=? error_counter ls' then
    print TooManyErrors ;;
    ret (ls', true)
  else
    ret (ls', false).

(** The [while] loop.  [None] means the fuel ran out. *)
Fixpoint while_loop (fuel : nat) (ls : locals) (st : state)
    : option (res locals * state) :=
  match fuel with
  | O => None
  | S fuel' =>
      match page_le (current_page ls) (total_pages ls) with
      | Raise e => Some (Raise e, st)
      | Normal false => Some (Normal ls, st)
      | Normal true =>
          match loop_body ls st with
          | (Raise e, st') => Some (Raise e, st')
          | (Normal (ls', true), st') => Some (Normal ls', st')
          | (Normal (ls', false), st') => while_loop fuel' ls' st'
          end
      end
  end.

(** [sum(item['temperature_noon_c'] for item in self.all_items)], with the
    running total in [acc]: each item is subscripted, then added.  The
    additions are exact.  Python adds floats with rounding and raises
    [OverflowError] when an int too large for a float meets a float; the
    model has neither, so it says which items make the sum raise for want
    of a number, not what a sum of floats or of huge numbers comes to. *)
Fixpoint sum_temperatures (acc : Q) (items : list value) : res Q :=
  match items with
  | [] => Normal acc
  | item :: rest =>
      match subscript item "temperature_noon_c" with
      | Raise e => Raise e
      | Normal v =>
          match as_number v with
          | None => Raise TypeError
          | Some q => sum_temperatures (acc + q)%Q rest
          end
      end
  end.

(** Lines 109-115 of [run]: the average and the two lines of the report.
    The quotient is exact as well: Python's true division rounds it to a
    double, and raises [OverflowError] when the quotient of two ints is too
    large for one.  The average printed by the model is the one the
    program prints wherever sum and quotient are exact in binary (small
    integers, halves, quarters); elsewhere only the shape of the report is
    meant. *)
Definition report : M unit :=
  items <- gets all_items ;;
  match items with
  | [] =>
      c <- gets city ;;
      print (City c) ;;
      print NoDataReceived
  | _ :: _ =>
      total <- lift (sum_temperatures 0%Q items) ;;
      let average_temp := (total / inject_Z (Z.of_nat (List.length items)))%Q in
      c <- gets city ;;
      print (City c) ;;
      print (AverageTemperature (format_3f average_temp))
  end.

(** Lines 88-107 of [run]: the first [get_token] and the [while] loop,
    giving the locals the loop ends with. *)
Definition run_pagination (fuel : nat) (st : state)
    : option (res locals * state) :=
  match get_token st with
  | (Raise e, st') => Some (Raise e, st')
  | (Normal _, st') => while_loop fuel (mkLocals 1 (VNum 1%Q) 0) st'
  end.

Definition run (fuel : nat) (st : state) : option (res unit * state) :=
  match run_pagination fuel st with
  | None => None
  | Some (Raise e, st') => Some (Raise e, st')
  | Some (Normal _, st') => Some (report st')
  end.

End Program.

Arguments get_token : simpl never.
Arguments validate_token : simpl never.
Arguments get_page : simpl never.
Arguments loop_body : simpl never.
Arguments report : simpl never.

(** ** Vocabulary of the properties *)

(** The fields of the client object. *)
Definition client_of (st : state) :=
  (token st, token_time st, city st, req_id st, url st, all_items st).

(** What a decoded page body makes [get_page] return. *)
Definition page_result (data : value) : res (option (value * value)) :=
  match dict_get data "items" (VList []) with
  | Raise e => Raise e
  | Normal items =>
      match dict_get data "total_pages" (VNum 1%Q) with
      | Raise e => Raise e
      | Normal total => Normal (Some (items, total))
      end
  end.

(** Two calls of [validate_token] one after the other. *)
Definition two_validations (env : Env) : M unit :=
  validate_token env ;; validate_token env.

(** No time passes from the state [st] on: every later reading of the
    clock gives the same instant [t]. *)
Definition frozen_clock (env : Env) (st : state) (t : Q) : Prop :=
  forall n, (clock_reads st <= n)%nat -> (clock env n == t)%Q.

(** [validate_token] is about to refresh. *)
Definition needs_refresh (env : Env) (st : state) : bool :=
  is_none (token st) ||
  Qle_bool TOKEN_TIMEOUT (clock env (clock_reads st) - token_time st)%Q.

(** The request [get_page] builds for [page] in state [st]. *)
Definition request_of (st : state) (page : Z) : request :=
  mkRequest (url st) (token st) (req_id st) page.

(** The exchange number [n] for request [rq] fails at transport level. *)
Definition exchange_fails (env : Env) (n : nat) (rq : request) : Prop :=
  is_none (rq_url rq) = true \/ page_reply env n rq = TransportError.

(** A record the aggregation can use. *)
Definition has_temperature (v : value) : bool :=
  match subscript v "temperature_noon_c" with
  | Normal t => match as_number t with Some _ => true | None => false end
  | Raise _ => false
  end.

(** An authentication body with the four keys [get_token] reads. *)
Definition auth_body_ok (b : value) : bool :=
  match subscript b "token", subscript b "dataset",
        subscript b "request_id", subscript b "data_url" with
  | Normal _, Normal _, Normal _, Normal _ => true
  | _, _, _, _ => false
  end.

(** Every authentication exchange is a transport failure or comes back
    with the four keys. *)
Definition auth_well_formed (env : Env) : Prop :=
  forall n, match auth_reply env n with
            | TransportError => True
            | Body b => auth_body_ok b = true
            end.

(** A page body is a dict whose [items], when present, is a list and whose
    [total_pages], when present, is a number not above [B]. *)
Definition page_body_shaped (B : Z) (data : value) : Prop :=
  match data with
  | VDict kvs =>
      (forall v, lookup "items" kvs = Some v -> exists l, v = VList l) /\
      (forall v, lookup "total_pages" kvs = Some v ->
                 exists q, v = VNum q /\ (q <= inject_Z B)%Q)
  | _ => False
  end.

(** Every page exchange is a transport failure or comes back with such a
    body. *)
Definition pages_shaped (env : Env) (B : Z) : Prop :=
  forall n rq, match page_reply env n rq with
               | TransportError => True
               | Body data => page_body_shaped B data
               end.

(** What holds at the head of the loop when all page bodies have that
    shape: the current bound is a number not above [B]. *)
Definition bound_within (B : Z) (ls : locals) (st : state) : Prop :=
  exists q, total_pages ls = VNum q /\ (q <= inject_Z B)%Q.

(** No page body reports more than [B] pages. *)
Definition total_pages_bounded (env : Env) (B : Z) : Prop :=
  forall n rq data total q,
    page_reply env n rq = Body data ->
    dict_get data "total_pages" (VNum 1%Q) = Normal total ->
    as_number total = Some q ->
    (q <= inject_Z B)%Q.

(** Every authentication exchange succeeds, with the four keys and a data
    URL that is not [None]. *)
Definition auth_always_succeeds (env : Env) : Prop :=
  forall n, exists b u,
    auth_reply env n = Body b /\ auth_body_ok b = true /\
    subscript b "data_url" = Normal u /\ is_none u = false.

(** Every page exchange succeeds: page [p] comes back with the items
    [pg p] and the total [T]. *)
Definition pages_always_succeed (env : Env) (pg : Z -> list value) (T : Z)
    : Prop :=
  forall n rq, exists data,
    page_reply env n rq = Body data /\
    dict_get data "items" (VList []) = Normal (VList (pg (rq_page rq))) /\
    dict_get data "total_pages" (VNum 1%Q) = Normal (VNum (inject_Z T)).

(** Among the pages [1..T], no five in a row are empty. *)
Definition no_five_empty (pg : Z -> list value) (T : Z) : Prop :=
  forall p, 1 <= p -> p + 4 <= T ->
    exists k, 0 <= k < 5 /\ pg (p + k) <> [].

(** The items of pages [1..n], in page order. *)
Definition items_upto (pg : Z -> list value) (n : nat) : list value :=
  List.concat (map (fun i => pg (Z.of_nat i)) (seq 1 n)).

(** What holds at the head of the loop, for a run started in [st0] in
    which every exchange succeeds: the pages [1..n] have been fetched, one
    request each, their items collected in order, and the error counter
    counts the empty pages just before the current one (fewer than
    five). *)
Definition fetched (pg : Z -> list value) (T : Z) (st0 : state)
    (ls : locals) (st : state) : Prop :=
  exists n : nat,
    current_page ls = Z.of_nat n + 1 /\
    Z.of_nat n <= T /\
    ((n = 0%nat /\ total_pages ls = VNum 1%Q) \/
     total_pages ls = VNum (inject_Z T)) /\
    0 <= error_counter ls <= 4 /\
    error_counter ls <= Z.of_nat n /\
    (forall k, 0 < k <= error_counter ls -> pg (current_page ls - k) = []) /\
    is_none (url st) = false /\
    all_items st = all_items st0 ++ items_upto pg n /\
    page_calls st = (page_calls st0 + n)%nat /\
    map rq_page (page_posts st) =
      map rq_page (page_posts st0) ++ map Z.of_nat (seq 1 n).

(** ** Scenarios *)

Definition temperature (t : Z) : value :=
  VDict [("temperature_noon_c"%string, VNum (inject_Z t))].

Definition auth_body (dataset : value) : value :=
  VDict [("token"%string, VStr "t0k3n");
         ("dataset"%string, dataset);
         ("request_id"%string, VStr "req-1");
         ("data_url"%string, VStr "https://example.test/data")].

Definition page_body (items : list value) (total : Z) : value :=
  VDict [("items"%string, VList items);
         ("total_pages"%string, VNum (inject_Z total))].

(** The authentication endpoint is unreachable; the data endpoint would
    answer. *)
Definition env_auth_down : Env :=
  mkEnv (fun _ => TransportError)
        (fun _ _ => Body (page_body [temperature 10] 1))
        (fun _ => 0%Q).

(** The authentication endpoint answers with an empty JSON object. *)
Definition env_auth_malformed : Env :=
  mkEnv (fun _ => Body (VDict []))
        (fun _ _ => Body (page_body [temperature 10] 1))
        (fun _ => 0%Q).

(** The page sequence of the round-trip property, in the order the
    requests arrive: the first body has no [total_pages]. *)
Definition env_round_trip (dataset : value) : Env :=
  mkEnv (fun _ => Body (auth_body dataset))
        (fun n _ =>
           match n with
           | O => Body (VDict [("items"%string, VList [temperature 10])])
           | S O => Body (page_body [temperature 20] 2)
           | _ => TransportError
           end)
        (fun _ => 0%Q).

(** The same with [total_pages] also on the first body. *)
Definition env_round_trip_total (dataset : value) : Env :=
  mkEnv (fun _ => Body (auth_body dataset))
        (fun n _ =>
           match n with
           | O => Body (page_body [temperature 10] 2)
           | S O => Body (page_body [temperature 20] 2)
           | _ => TransportError
           end)
        (fun _ => 0%Q).

(** Three pages; page 2 is down, pages 1 and 3 answer. *)
Definition env_page2_down : Env :=
  mkEnv (fun _ => Body (auth_body (VStr "Haifa")))
        (fun _ rq =>
           if rq_page rq =? 2 then TransportError
           else Body (page_body [temperature (10 * rq_page rq)] 3))
        (fun _ => 0%Q).

(** Six pages, all answering, all without items. *)
Definition env_six_empty : Env :=
  mkEnv (fun _ => Body (auth_body (VStr "Haifa")))
        (fun _ _ => Body (page_body [] 6))
        (fun _ => 0%Q).

(** A client that authenticated at instant 0 and has fetched nothing. *)
Definition authenticated : state :=
  mkState (VStr "t0k3n") 0%Q (VStr "Haifa") (VStr "req-1")
    (VStr "https://example.test/data") [] 1%nat [] 1%nat 0%nat 0%nat [].

(** The authentication endpoint is unreachable and the clock stands at
    100, past the lifetime of a token issued at 0. *)
Definition env_auth_down_late : Env :=
  mkEnv (fun _ => TransportError)
        (fun _ _ => Body (page_body [temperature 10] 1))
        (fun _ => 100%Q).

(** Two pages of one record each, all answering. *)
Definition env_two_pages : Env :=
  mkEnv (fun _ => Body (auth_body (VStr "Haifa")))
        (fun _ rq => Body (page_body [temperature (10 * rq_page rq)] 2))
        (fun _ => 0%Q).

(** ** Further vocabulary and scenarios *)

(** The page numbers asked for by consecutive calls of [get_page] starting
    at page [p], when the i-th call posts [nth i ks] requests. *)
Fixpoint page_blocks (p : Z) (ks : list nat) : list Z :=
  match ks with
  | [] => []
  | k :: ks' => repeat p k ++ page_blocks (p + 1) ks'
  end.

(** What the interactions between [st] and [st'] may cost at most, counted
    per call of [get_page]: one authentication exchange, three page
    requests and two sleeps; nothing collected is dropped. *)
Definition effort_within (st st' : state) : Prop :=
  (page_calls st <= page_calls st')%nat /\
  (auth_posts st <= auth_posts st')%nat /\
  (auth_posts st' + page_calls st <= auth_posts st + page_calls st')%nat /\
  (List.length (page_posts st') + 3 * page_calls st <=
   List.length (page_posts st) + 3 * page_calls st')%nat /\
  (sleeps st' + 2 * page_calls st <= sleeps st + 2 * page_calls st')%nat /\
  exists l, all_items st' = all_items st ++ l.

(** The authentication endpoint answers with a token and nothing else. *)
Definition env_auth_token_only : Env :=
  mkEnv (fun _ => Body (VDict [("token"%string, VStr "n3w")]))
        (fun _ _ => Body (page_body [temperature 10] 1))
        (fun _ => 7%Q).

(** The authentication endpoint answers; the clock stands at 55, exactly
    the lifetime of a token issued at 0. *)
Definition env_renewal : Env :=
  mkEnv (fun _ => Body (VDict [("token"%string, VStr "n3w");
                               ("dataset"%string, VStr "Eilat");
                               ("request_id"%string, VStr "req-2");
                               ("data_url"%string,
                                VStr "https://example.test/data2")]))
        (fun _ _ => Body (page_body [temperature 10] 1))
        (fun _ => 55%Q).

(** The clock stands at 54; nobody answers. *)
Definition env_clock_54 : Env :=
  mkEnv (fun _ => TransportError) (fun _ _ => TransportError) (fun _ => 54%Q).

(** The data endpoint fails twice, then answers. *)
Definition env_flaky : Env :=
  mkEnv (fun _ => Body (auth_body (VStr "Haifa")))
        (fun n _ => if (n <? 2)%nat then TransportError
                    else Body (page_body [temperature 10; temperature 30] 4))
        (fun _ => 0%Q).

(** The data endpoint answers with a JSON list. *)
Definition env_list_body : Env :=
  mkEnv (fun _ => Body (auth_body (VStr "Haifa")))
        (fun _ _ => Body (VList [temperature 10]))
        (fun _ => 0%Q).

(** The data endpoint is down. *)
Definition env_pages_down : Env :=
  mkEnv (fun _ => Body (auth_body (VStr "Haifa")))
        (fun _ _ => TransportError)
        (fun _ => 0%Q).

(** A client holding two usable records and one without a temperature. *)
Definition holding_bad_item : state :=
  set_all_items
    [temperature 10; VDict [("humidity"%string, VNum 40%Q)]; temperature 30]
    authenticated.

(** A client holding two usable records. *)
Definition holding_two : state :=
  set_all_items [temperature 10; temperature 21] authenticated.

(** * Properties *)


Ltac unfold_monad :=
  unfold bind, ret, lift, gets, modify, print, time, sleep, post_auth,
    post_page in *.

(** ** Authentication *)

Section Authentication.

Variable env : Env.

Lemma get_token_transport_error (st : state) :
  auth_reply env (auth_posts st) = TransportError ->
  get_token env st =
    (Normal tt, set_token VNone (log_print TokenNetworkError (log_auth_post st))).
Proof.
  intros H. unfold get_token. unfold_monad. rewrite H. reflexivity.
Qed.

(** Whatever the exchange gives, [get_token] leaves the collected items
    and the page log alone and performs exactly one exchange. *)
Lemma get_token_frame (st : state) :
  let st' := snd (get_token env st) in
  all_items st' = all_items st /\ page_posts st' = page_posts st /\
  page_calls st' = page_calls st /\ sleeps st' = sleeps st /\
  auth_posts st' = S (auth_posts st) /\
  (clock_reads st <= clock_reads st')%nat.
Proof.
  unfold get_token. unfold_monad.
  destruct (auth_reply env (auth_posts st)) as [|b]; cbn.
  - repeat split; auto.
  - destruct (subscript b "token"); cbn; [|repeat split; auto].
    destruct (subscript b "dataset"); cbn; [|repeat split; auto].
    destruct (subscript b "request_id"); cbn; [|repeat split; auto].
    destruct (subscript b "data_url"); cbn; repeat split; auto.
Qed.

(** A body with the four keys replaces the whole credential. *)
Lemma get_token_body_ok (st : state) (b : value) :
  auth_reply env (auth_posts st) = Body b ->
  auth_body_ok b = true ->
  exists st',
    get_token env st = (Normal tt, st') /\
    subscript b "token" = Normal (token st') /\
    subscript b "dataset" = Normal (city st') /\
    subscript b "request_id" = Normal (req_id st') /\
    subscript b "data_url" = Normal (url st') /\
    token_time st' = clock env (clock_reads st) /\
    clock_reads st' = S (clock_reads st).
Proof.
  intros H Hok. unfold get_token. unfold_monad. rewrite H.
  unfold auth_body_ok in Hok.
  destruct (subscript b "token"); [|discriminate].
  destruct (subscript b "dataset"); [|discriminate].
  destruct (subscript b "request_id"); [|discriminate].
  destruct (subscript b "data_url"); [|discriminate].
  cbn. eexists. repeat split.
Qed.

(** With well-formed authentication replies [get_token] returns. *)
Lemma get_token_returns (st : state) :
  auth_well_formed env -> fst (get_token env st) = Normal tt.
Proof.
  intros Hwf. specialize (Hwf (auth_posts st)).
  destruct (auth_reply env (auth_posts st)) as [|b] eqn:E.
  - rewrite get_token_transport_error by assumption. reflexivity.
  - destruct (get_token_body_ok st b E Hwf) as (st' & -> & _). reflexivity.
Qed.

Lemma validate_token_unfold (st : state) :
  validate_token env st =
    if needs_refresh env st then
      (if is_none (token st) then get_token env st
       else get_token env (log_clock_read st))
    else (Normal tt, log_clock_read st).
Proof.
  unfold validate_token, needs_refresh. unfold_monad.
  destruct (is_none (token st)); cbn; [reflexivity|].
  destruct (Qle_bool _ _); reflexivity.
Qed.

Lemma validate_token_frame (st : state) :
  let st' := snd (validate_token env st) in
  all_items st' = all_items st /\ page_posts st' = page_posts st /\
  page_calls st' = page_calls st /\ sleeps st' = sleeps st /\
  (auth_posts st <= auth_posts st' <= S (auth_posts st))%nat /\
  (clock_reads st <= clock_reads st')%nat.
Proof.
  rewrite validate_token_unfold.
  destruct (needs_refresh env st).
  - destruct (is_none (token st)).
    + pose proof (get_token_frame st) as F. cbn zeta in F.
      destruct F as (?&?&?&?&?&?). repeat split; auto; lia.
    + pose proof (get_token_frame (log_clock_read st)) as F. cbn zeta in F.
      cbn in F. destruct F as (?&?&?&?&?&?). repeat split; auto; lia.
  - cbn. repeat split; auto.
Qed.

Lemma validate_token_returns (st : state) :
  auth_well_formed env -> fst (validate_token env st) = Normal tt.
Proof.
  intros Hwf. rewrite validate_token_unfold.
  destruct (needs_refresh env st); [|reflexivity].
  destruct (is_none (token st)); apply get_token_returns; assumption.
Qed.

(** Counting a call of [get_page] does not interfere with the token. *)
Lemma get_token_log_page_call (st : state) :
  get_token env (log_page_call st) =
    (fst (get_token env st), log_page_call (snd (get_token env st))).
Proof.
  unfold get_token. unfold_monad. cbn.
  destruct (auth_reply env (auth_posts st)) as [|b]; cbn; [reflexivity|].
  destruct (subscript b "token"); cbn; [|reflexivity].
  destruct (subscript b "dataset"); cbn; [|reflexivity].
  destruct (subscript b "request_id"); cbn; [|reflexivity].
  destruct (subscript b "data_url"); reflexivity.
Qed.

Lemma validate_token_log_page_call (st : state) :
  validate_token env (log_page_call st) =
    (fst (validate_token env st), log_page_call (snd (validate_token env st))).
Proof.
  rewrite !validate_token_unfold.
  change (needs_refresh env (log_page_call st)) with (needs_refresh env st).
  change (token (log_page_call st)) with (token st).
  destruct (needs_refresh env st); [|reflexivity].
  destruct (is_none (token st)); [apply get_token_log_page_call|].
  apply (get_token_log_page_call (log_clock_read st)).
Qed.

End Authentication.

(** ** Fetching one page *)

Section Fetching.

Variable env : Env.

Lemma attempts_S (tok rid : value) (page : Z) (mr r : nat) (a : Z) (st : state) :
  attempts env tok rid page mr (S r) a st =
    let rq := mkRequest (url st) tok rid page in
    let st1 := log_page_post rq st in
    match (if is_none (url st) then TransportError
           else page_reply env (List.length (page_posts st)) rq) with
    | Body data => (page_result data, st1)
    | TransportError =>
        let st2 := log_print (AttemptFailed a page) st1 in
        if a <? Z.of_nat mr then
          attempts env tok rid page mr r (a + 1) (log_sleep st2)
        else
          (Normal (Some (VList [], VNum 1%Q)),
           log_print (PageFailedAfter page mr) st2)
    end.
Proof.
  cbn [attempts]. unfold_monad. cbn zeta.
  destruct (if is_none (url st) then _ else _) as [|data].
  - destruct (a <? Z.of_nat mr); reflexivity.
  - unfold page_result.
    destruct (dict_get data "items" _); [|reflexivity].
    destruct (dict_get data "total_pages" _); reflexivity.
Qed.

(** The retry loop touches nothing of the client object; it only posts
    the same request again and again, at most [remaining] times. *)
Lemma attempts_frame (tok rid : value) (page : Z) (mr : nat) :
  forall (r : nat) (a : Z) (st : state),
    let st' := snd (attempts env tok rid page mr r a st) in
    client_of st' = client_of st /\
    auth_posts st' = auth_posts st /\
    clock_reads st' = clock_reads st /\
    page_calls st' = page_calls st /\
    exists k, (k <= r)%nat /\ ((0 < r)%nat -> (0 < k)%nat) /\
      page_posts st' =
        page_posts st ++ repeat (mkRequest (url st) tok rid page) k.
Proof.
  induction r as [|r IH]; intros a st.
  - cbn. repeat split; auto. exists 0%nat. cbn.
    rewrite app_nil_r. repeat split; auto; lia.
  - rewrite attempts_S. cbn zeta.
    destruct (if is_none (url st) then _ else _) as [|data].
    + destruct (a <? Z.of_nat mr).
      * specialize (IH (a + 1)
          (log_sleep (log_print (AttemptFailed a page)
             (log_page_post (mkRequest (url st) tok rid page) st)))).
        cbn zeta in IH. destruct IH as (Hc & Ha & Hk & Hp & k & Hle & _ & Hposts).
        repeat split; auto.
        exists (S k). repeat split; try lia.
        rewrite Hposts. cbn. rewrite <- app_assoc. reflexivity.
      * cbn. repeat split; auto. exists 1%nat. repeat split; auto; lia.
    + cbn. repeat split; auto. exists 1%nat. repeat split; auto; lia.
Qed.

(** Each outcome of the retry loop is the loop falling through, the
    failure sentinel, or what some decoded body gives. *)
Lemma attempts_cases (tok rid : value) (page : Z) (mr : nat) :
  forall (r : nat) (a : Z) (st : state),
    let res := fst (attempts env tok rid page mr r a st) in
    res = Normal None \/
    res = Normal (Some (VList [], VNum 1%Q)) \/
    exists n rq data, page_reply env n rq = Body data /\ res = page_result data.
Proof.
  induction r as [|r IH]; intros a st.
  - left. reflexivity.
  - rewrite attempts_S. cbn zeta.
    destruct (is_none (url st)).
    + destruct (a <? Z.of_nat mr); [apply IH | right; left; reflexivity].
    + destruct (page_reply env _ _) as [|data] eqn:E.
      * destruct (a <? Z.of_nat mr); [apply IH | right; left; reflexivity].
      * right; right. eauto.
Qed.

(** When the retry loop is entered as [get_page] enters it, it does not
    fall through. *)
Lemma attempts_not_none (tok rid : value) (page : Z) (mr : nat) :
  forall (r : nat) (a : Z) (st : state),
    (0 < r)%nat -> a + Z.of_nat r = Z.of_nat mr + 1 ->
    fst (attempts env tok rid page mr r a st) <> Normal None.
Proof.
  induction r as [|r IH]; intros a st Hr Ha; [lia|].
  rewrite attempts_S. cbn zeta.
  assert (Hp : forall data, page_result data <> Normal None).
  { intros data. unfold page_result.
    destruct (dict_get data "items" _); [|discriminate].
    destruct (dict_get data "total_pages" _); discriminate. }
  destruct (if is_none (url st) then _ else _) as [|data]; [|apply Hp].
  destruct (a <? Z.of_nat mr) eqn:E; [|discriminate].
  apply IH; [|lia].
  apply Z.ltb_lt in E. lia.
Qed.

(** All [r] remaining exchanges fail: the sentinel comes back after [r]
    posts of the same request, and nothing is collected. *)
Lemma attempts_all_fail (tok rid : value) (page : Z) (mr : nat) :
  forall (r : nat) (a : Z) (st : state),
    (0 < r)%nat -> a + Z.of_nat r = Z.of_nat mr + 1 ->
    (forall k, (k < r)%nat ->
       exchange_fails env (List.length (page_posts st) + k)
         (mkRequest (url st) tok rid page)) ->
    exists st',
      attempts env tok rid page mr r a st =
        (Normal (Some (VList [], VNum 1%Q)), st') /\
      client_of st' = client_of st /\
      auth_posts st' = auth_posts st /\
      page_calls st' = page_calls st /\
      page_posts st' =
        page_posts st ++ repeat (mkRequest (url st) tok rid page) r.
Proof.
  induction r as [|r IH]; intros a st Hr Ha Hfail; [lia|].
  rewrite attempts_S. cbn zeta.
  assert (E : (if is_none (url st) then TransportError
               else page_reply env (List.length (page_posts st))
                      (mkRequest (url st) tok rid page)) = TransportError).
  { destruct (Hfail 0%nat ltac:(lia)) as [H|H]; cbn in H.
    - rewrite H. reflexivity.
    - rewrite Nat.add_0_r in H. rewrite H. destruct (is_none _); reflexivity. }
  rewrite E.
  destruct (a <? Z.of_nat mr) eqn:Elt.
  - apply Z.ltb_lt in Elt.
    destruct (IH (a + 1)
      (log_sleep (log_print (AttemptFailed a page)
         (log_page_post (mkRequest (url st) tok rid page) st))))
      as (st' & Hrun & Hc & Ha' & Hpc & Hposts); [lia | lia | |].
    { intros k Hk. cbn. rewrite length_app. cbn.
      replace (List.length (page_posts st) + 1 + k)%nat
        with (List.length (page_posts st) + S k)%nat by lia.
      apply Hfail. lia. }
    exists st'. repeat split; auto.
    rewrite Hposts. cbn. rewrite <- app_assoc. reflexivity.
  - apply Z.ltb_ge in Elt. assert (r = 0%nat) by lia. subst r.
    eexists. repeat split.
Qed.

Lemma get_page_unfold (page : Z) (mr : nat) (st : state) :
  get_page env page mr st =
    match validate_token env (log_page_call st) with
    | (Raise e, st1) => (Raise e, st1)
    | (Normal _, st1) =>
        attempts env (token st1) (req_id st1) page mr mr 1 st1
    end.
Proof.
  unfold get_page. unfold_monad.
  destruct (validate_token env (log_page_call st)) as [[[]|e] st1]; reflexivity.
Qed.

(** [get_page] collects nothing itself and counts as one fetch. *)
Lemma get_page_frame (page : Z) (mr : nat) (st : state) :
  let st' := snd (get_page env page mr st) in
  all_items st' = all_items st /\ page_calls st' = S (page_calls st).
Proof.
  rewrite get_page_unfold.
  pose proof (validate_token_frame env (log_page_call st)) as F.
  cbn in F. destruct F as (Hi & _ & Hc & _).
  destruct (validate_token env (log_page_call st)) as [[[]|e] st1];
    cbn [snd] in *.
  - pose proof (attempts_frame (token st1) (req_id st1) page mr mr 1 st1) as G.
    cbn zeta in G. destruct G as (Gc & _ & _ & Gp & _).
    unfold client_of in Gc. split; [|rewrite Gp, Hc; reflexivity].
    rewrite <- Hi. congruence.
  - split; assumption.
Qed.

(** With three retries [get_page] raises, gives the failure sentinel, or
    gives what some decoded body gives; it never returns [None]. *)
Lemma get_page_cases (page : Z) (st : state) :
  let res := fst (get_page env page 3 st) in
  (exists e, res = Raise e /\ fst (validate_token env (log_page_call st)) = Raise e) \/
  res = Normal (Some (VList [], VNum 1%Q)) \/
  exists n rq data, page_reply env n rq = Body data /\ res = page_result data.
Proof.
  rewrite get_page_unfold.
  destruct (validate_token env (log_page_call st)) as [[[]|e] st1]; cbn [fst].
  - pose proof (attempts_cases (token st1) (req_id st1) page 3 3 1 st1) as C.
    pose proof (attempts_not_none (token st1) (req_id st1) page 3 3 1 st1) as N.
    cbn zeta in C. destruct C as [C|[C|C]]; auto.
    exfalso. apply N; [lia | reflexivity | exact C].
  - left. eauto.
Qed.

End Fetching.

(** ** The pagination loop *)

Section Pagination.

Variable env : Env.

Lemma loop_body_unfold (ls : locals) (st : state) :
  loop_body env ls st =
    match get_page env (current_page ls) 3 st with
    | (Raise e, st1) => (Raise e, st1)
    | (Normal None, st1) => (Raise TypeError, st1)
    | (Normal (Some (items, total)), st1) =>
        if truthy items then
          match iterate items with
          | Raise e => (Raise e, st1)
          | Normal l =>
              let ls' := mkLocals (current_page ls + 1) total 0 in
              (Normal (ls', false), set_all_items (all_items st1 ++ l) st1)
          end
        else
          let ls' :=
            mkLocals (current_page ls + 1) total (error_counter ls + 1) in
          let st2 := log_print (FailedToGetPage (current_page ls)) st1 in
          if MAX_ERROR <=? error_counter ls + 1
          then (Normal (ls', true), log_print TooManyErrors st2)
          else (Normal (ls', false), st2)
    end.
Proof.
  unfold loop_body, extend. unfold_monad.
  destruct (get_page env (current_page ls) 3 st) as [[[[items total]|]|e] st1];
    cbn; try reflexivity.
  destruct (truthy items); cbn.
  - destruct (iterate items); reflexivity.
  - destruct (MAX_ERROR <=? error_counter ls + 1); reflexivity.
Qed.

(** Every pass is one fetch, moves to the next page, and takes its new
    bound from the sentinel or from a decoded body. *)
Lemma loop_body_progress (ls : locals) (st : state) :
  page_calls (snd (loop_body env ls st)) = S (page_calls st) /\
  forall ls' b, fst (loop_body env ls st) = Normal (ls', b) ->
    current_page ls' = current_page ls + 1 /\
    (b = true -> MAX_ERROR <= error_counter ls') /\
    (total_pages ls' = VNum 1%Q \/
     exists n rq data,
       page_reply env n rq = Body data /\
       dict_get data "total_pages" (VNum 1%Q) = Normal (total_pages ls')).
Proof.
  rewrite loop_body_unfold.
  pose proof (get_page_frame env (current_page ls) 3 st) as F.
  pose proof (get_page_cases env (current_page ls) st) as C.
  cbn zeta in F, C. destruct F as (_ & Fp).
  destruct (get_page env (current_page ls) 3 st) as [[[[items total]|]|e] st1];
    cbn [fst snd] in *.
  - assert (Ht : total = VNum 1%Q \/
                 exists n rq data, page_reply env n rq = Body data /\
                   dict_get data "total_pages" (VNum 1%Q) = Normal total).
    { destruct C as [(e & C & _)|[C|(n & rq & data & Hr & C)]];
        [discriminate | left; congruence | right].
      exists n, rq, data. split; [assumption|].
      unfold page_result in C.
      destruct (dict_get data "items" _); [|discriminate].
      destruct (dict_get data "total_pages" _); [|discriminate].
      congruence. }
    destruct (truthy items).
    + destruct (iterate items); cbn; (split; [assumption|]); intros ls' b H;
        inversion H; subst; cbn; repeat split; auto; discriminate.
    + destruct (MAX_ERROR <=? error_counter ls + 1) eqn:E; cbn;
        (split; [assumption|]); intros ls' b H; inversion H; subst; cbn;
        repeat split; auto; try discriminate.
      intros _. apply Z.leb_le. assumption.
  - split; [assumption | discriminate].
  - split; [assumption | discriminate].
Qed.

(** More fuel does not change an outcome. *)
Lemma while_loop_more_fuel :
  forall (k : nat) (ls : locals) (st : state) r,
    while_loop env k ls st = Some r ->
    forall k', (k <= k')%nat -> while_loop env k' ls st = Some r.
Proof.
  induction k as [|k IH]; intros ls st r H k' Hle; [discriminate|].
  destruct k' as [|k']; [lia|].
  cbn [while_loop] in *.
  destruct (page_le _ _) as [[|]|]; try assumption.
  destruct (loop_body env ls st) as [[[ls' []]|e] st']; try assumption.
  apply IH; [assumption | lia].
Qed.

Lemma run_pagination_more_fuel (k k' : nat) (st : state) r :
  run_pagination env k st = Some r -> (k <= k')%nat ->
  run_pagination env k' st = Some r.
Proof.
  unfold run_pagination.
  destruct (get_token env st) as [[[]|e] st0]; [|auto].
  intros H Hle. exact (while_loop_more_fuel k _ _ r H k' Hle).
Qed.

(** The outcome of [run] does not depend on the fuel, once there is
    enough of it. *)
Lemma run_more_fuel (k k' : nat) (st : state) r :
  run env k st = Some r -> (k <= k')%nat -> run env k' st = Some r.
Proof.
  unfold run. intros H Hle.
  destruct (run_pagination env k st) as [p|] eqn:E; [|discriminate].
  rewrite (run_pagination_more_fuel k k' st p E Hle). exact H.
Qed.

(** A loop invariant with a decreasing measure: the loop ends normally,
    in a state that satisfies the invariant, either because the condition
    is false or because the error ceiling was reached. *)
Lemma while_loop_invariant (I : locals -> state -> Prop) (mu : locals -> nat) :
  (forall ls st, I ls st ->
     exists c, page_le (current_page ls) (total_pages ls) = Normal c) ->
  (forall ls st, I ls st ->
     page_le (current_page ls) (total_pages ls) = Normal true ->
     exists ls' b st',
       loop_body env ls st = (Normal (ls', b), st') /\
       I ls' st' /\ (mu ls' < mu ls)%nat) ->
  forall (k : nat) (ls : locals) (st : state),
    I ls st -> (mu ls <= k)%nat ->
    exists ls' st',
      while_loop env (S k) ls st = Some (Normal ls', st') /\ I ls' st' /\
      (page_le (current_page ls') (total_pages ls') = Normal false \/
       MAX_ERROR <= error_counter ls').
Proof.
  intros Hcond Hbody.
  induction k as [|k IH]; intros ls st HI Hk.
  - cbn [while_loop].
    destruct (Hcond ls st HI) as ([|] & Hc); rewrite Hc.
    + destruct (Hbody ls st HI Hc) as (ls' & b & st' & _ & _ & Hmu). lia.
    + exists ls, st. auto.
  - cbn [while_loop].
    destruct (Hcond ls st HI) as ([|] & Hc).
    + destruct (Hbody ls st HI Hc) as (ls' & b & st' & Hrun & HI' & Hmu).
      pose proof (loop_body_progress ls st) as (_ & P).
      rewrite Hc.
      rewrite Hrun in *. cbn [fst] in P.
      destruct (P ls' b eq_refl) as (_ & Hb & _).
      destruct b.
      * exists ls', st'. auto.
      * apply IH; [assumption | lia].
    + rewrite Hc. exists ls, st. auto.
Qed.

(** The loop ends whenever the reported totals are bounded, and fetches at
    most as many pages as remain below the bound. *)
Lemma while_loop_terminates (B : Z) :
  1 <= B -> total_pages_bounded env B ->
  forall (k : nat) (ls : locals) (st : state),
    (forall q, as_number (total_pages ls) = Some q -> (q <= inject_Z B)%Q) ->
    B + 1 - current_page ls <= Z.of_nat k ->
    exists r st',
      while_loop env (S k) ls st = Some (r, st') /\
      Z.of_nat (page_calls st') <=
        Z.of_nat (page_calls st) + Z.max 0 (B + 1 - current_page ls).
Proof.
  intros HB Hbound.
  induction k as [|k IH]; intros ls st Htot Hk.
  - cbn [while_loop]. unfold page_le.
    destruct (as_number (total_pages ls)) as [q|] eqn:Eq;
      [|eexists _, _; split; [reflexivity | lia]].
    destruct (Qle_bool (inject_Z (current_page ls)) q) eqn:Ec;
      [|eexists _, _; split; [reflexivity | lia]].
    apply Qle_bool_iff in Ec. specialize (Htot q eq_refl).
    assert (H : (inject_Z (current_page ls) <= inject_Z B)%Q) by lra.
    rewrite <- Zle_Qle in H. lia.
  - cbn [while_loop]. unfold page_le.
    destruct (as_number (total_pages ls)) as [q|] eqn:Eq;
      [|eexists _, _; split; [reflexivity | lia]].
    destruct (Qle_bool (inject_Z (current_page ls)) q) eqn:Ec;
      [|eexists _, _; split; [reflexivity | lia]].
    apply Qle_bool_iff in Ec. specialize (Htot q eq_refl).
    assert (H : (inject_Z (current_page ls) <= inject_Z B)%Q) by lra.
    rewrite <- Zle_Qle in H.
    pose proof (loop_body_progress ls st) as (Hpc & P).
    destruct (loop_body env ls st) as [[[ls' b]|e] st1]; cbn [fst snd] in *;
      [|eexists _, _; split; [reflexivity | lia]].
    destruct (P ls' b eq_refl) as (Hcur & _ & Htot').
    destruct b; [eexists _, _; split; [reflexivity | lia]|].
    destruct (IH ls' st1) as (r & st' & Hrun & Hcalls).
    + intros q' Hq'. destruct Htot' as [E|(n & rq & data & Hr & Hd)].
      * rewrite E in Hq'. cbn in Hq'. inversion Hq'; subst.
        rewrite Zle_Qle in HB. exact HB.
      * eapply Hbound; eassumption.
    + lia.
    + exists r, st'. split; [assumption | lia].
Qed.

End Pagination.

(** The first pass through the loop when no authentication exchange ever
    succeeds. *)
Lemma loop_body_auth_down (env : Env) :
  (forall n, auth_reply env n = TransportError) ->
  exists st1,
    loop_body env (mkLocals 1 (VNum 1%Q) 0)
      (set_token VNone (log_print TokenNetworkError (log_auth_post init))) =
      (Normal (mkLocals 2 (VNum 1%Q) 1, false), st1) /\
    token st1 = VNone /\ city st1 = VNone /\ all_items st1 = [] /\
    page_calls st1 = 1%nat /\
    page_posts st1 = repeat (mkRequest VNone VNone VNone 1) 3 /\
    stdout st1 =
      [TokenNetworkError; TokenNetworkError;
       AttemptFailed 1 1; AttemptFailed 2 1; AttemptFailed 3 1;
       PageFailedAfter 1 3; FailedToGetPage 1].
Proof.
  intros H.
  rewrite loop_body_unfold, get_page_unfold, validate_token_unfold.
  match goal with |- context [needs_refresh env ?s] =>
    change (needs_refresh env s) with true;
    change (is_none (token s)) with true end.
  cbv iota.
  rewrite get_token_transport_error by apply H.
  rewrite attempts_S. cbn -[attempts].
  rewrite attempts_S. cbn -[attempts].
  rewrite attempts_S. cbn -[attempts].
  eexists. split; [reflexivity|]. cbn. repeat split.
Qed.

(** ** Token freshness *)

Section Freshness.

Variable env : Env.

Lemma is_none_false (v : value) : v <> VNone -> is_none v = false.
Proof. destruct v; intros H; try reflexivity. contradiction. Qed.

(** A token issued at the present instant is not stale. *)
Lemma just_issued (now issued : Q) :
  (now == issued)%Q -> Qle_bool TOKEN_TIMEOUT (now - issued)%Q = false.
Proof.
  intros H. destruct (Qle_bool _ _) eqn:E; [|reflexivity].
  apply Qle_bool_iff in E. unfold TOKEN_TIMEOUT in E. lra.
Qed.

(** Staleness only depends on the instant read. *)
Lemma still_fresh (now now' issued : Q) :
  (now' == now)%Q ->
  Qle_bool TOKEN_TIMEOUT (now - issued)%Q = false ->
  Qle_bool TOKEN_TIMEOUT (now' - issued)%Q = false.
Proof.
  intros H E. destruct (Qle_bool _ (now' - _)%Q) eqn:E'; [|reflexivity].
  apply Qle_bool_iff in E'.
  assert (F : (TOKEN_TIMEOUT <= now - issued)%Q) by lra.
  apply Qle_bool_iff in F. congruence.
Qed.

(** A refresh that returns either met a transport failure and left no
    token, or stamped the token with the instant it read. *)
Lemma get_token_normal (st st1 : state) :
  get_token env st = (Normal tt, st1) ->
  token st1 = VNone \/
  (token_time st1 = clock env (clock_reads st) /\
   clock_reads st1 = S (clock_reads st)).
Proof.
  unfold get_token. unfold_monad.
  destruct (auth_reply env (auth_posts st)) as [|b]; cbn.
  - intros H. inversion H; subst. left. reflexivity.
  - destruct (subscript b "token"); cbn; [|discriminate].
    destruct (subscript b "dataset"); cbn; [|discriminate].
    destruct (subscript b "request_id"); cbn; [|discriminate].
    destruct (subscript b "data_url"); cbn; [|discriminate].
    intros H. inversion H; subst. right. split; reflexivity.
Qed.

Lemma two_validations_unfold (st : state) :
  two_validations env st =
    match validate_token env st with
    | (Normal _, st1) => validate_token env st1
    | (Raise e, st1) => (Raise e, st1)
    end.
Proof. reflexivity. Qed.

(** Two calls never perform more than two exchanges. *)
Lemma two_validations_at_most_two (st : state) :
  (auth_posts (snd (two_validations env st)) <= auth_posts st + 2)%nat.
Proof.
  rewrite two_validations_unfold.
  pose proof (validate_token_frame env st) as F. cbn zeta in F.
  destruct (validate_token env st) as [[[]|e] st1]; cbn [snd] in *.
  - pose proof (validate_token_frame env st1) as G. cbn zeta in G. lia.
  - lia.
Qed.

(** After a call that leaves a token, and with the clock standing still,
    the next call has nothing to do. *)
Lemma validated_token_is_fresh (st st1 : state) (t : Q) :
  frozen_clock env st t ->
  validate_token env st = (Normal tt, st1) ->
  token st1 <> VNone ->
  needs_refresh env st1 = false.
Proof.
  intros Hclock Hv Htok.
  rewrite validate_token_unfold in Hv.
  unfold needs_refresh. rewrite (is_none_false _ Htok). cbn [orb].
  destruct (needs_refresh env st) eqn:En.
  - assert (N : exists s0, get_token env s0 = (Normal tt, st1) /\
                           (clock_reads st <= clock_reads s0)%nat).
    { destruct (is_none (token st)); eexists; (split; [exact Hv|]); cbn; lia. }
    destruct N as (s0 & Hg & Hle).
    destruct (get_token_normal s0 st1 Hg) as [H|[Ht Hr]]; [contradiction|].
    rewrite Ht, Hr. apply just_issued.
    rewrite (Hclock (S (clock_reads s0))) by lia.
    rewrite (Hclock (clock_reads s0)) by lia. reflexivity.
  - inversion Hv; subst. cbn.
    unfold needs_refresh in En. apply orb_false_iff in En as [_ En].
    apply (still_fresh (clock env (clock_reads st))); [|exact En].
    rewrite (Hclock (S (clock_reads st))) by lia.
    rewrite (Hclock (clock_reads st)) by lia. reflexivity.
Qed.

(** When the first of two calls has to refresh and both exchanges fail at
    the network level, the second call refreshes again. *)
Lemma two_validations_after_failure (st : state) :
  needs_refresh env st = true ->
  auth_reply env (auth_posts st) = TransportError ->
  auth_reply env (S (auth_posts st)) = TransportError ->
  auth_posts (snd (two_validations env st)) = (auth_posts st + 2)%nat.
Proof.
  intros Hn H1 H2. rewrite two_validations_unfold, validate_token_unfold, Hn.
  assert (E : exists st1,
    (if is_none (token st) then get_token env st
     else get_token env (log_clock_read st)) = (Normal tt, st1) /\
    token st1 = VNone /\ auth_posts st1 = S (auth_posts st)).
  { destruct (is_none (token st));
      rewrite get_token_transport_error by exact H1;
      eexists; repeat split. }
  destruct E as (st1 & -> & Ht & Ha).
  rewrite validate_token_unfold. unfold needs_refresh. rewrite Ht. cbn.
  rewrite get_token_transport_error by (rewrite Ha; exact H2).
  cbn. rewrite Ha. lia.
Qed.

End Freshness.

(** ** Runs on well-shaped replies *)

Lemma page_result_shaped (B : Z) (data : value) :
  1 <= B -> page_body_shaped B data ->
  exists l q,
    page_result data = Normal (Some (VList l, VNum q)) /\
    (q <= inject_Z B)%Q.
Proof.
  intros HB H. destruct data as [| | | | |kvs]; try contradiction.
  destruct H as (Hitems & Htotal). unfold page_result, dict_get.
  destruct (lookup "items" kvs) as [v|].
  - destruct (Hitems v eq_refl) as (l & ->).
    destruct (lookup "total_pages" kvs) as [w|].
    + destruct (Htotal w eq_refl) as (q & -> & Hq). eauto.
    + exists l, 1%Q. split; auto. rewrite Zle_Qle in HB. exact HB.
  - destruct (lookup "total_pages" kvs) as [w|].
    + destruct (Htotal w eq_refl) as (q & -> & Hq). exists [], q. auto.
    + exists [], 1%Q. split; auto. rewrite Zle_Qle in HB. exact HB.
Qed.

Section WellShaped.

Variable env : Env.
Variable B : Z.
Hypothesis B_pos : 1 <= B.
Hypothesis auth_wf : auth_well_formed env.
Hypothesis pages_wf : pages_shaped env B.

Lemma get_page_shaped (page : Z) (st : state) :
  exists l q st1,
    get_page env page 3 st = (Normal (Some (VList l, VNum q)), st1) /\
    (q <= inject_Z B)%Q.
Proof.
  pose proof (get_page_cases env page st) as C.
  pose proof (validate_token_returns env (log_page_call st) auth_wf) as V.
  cbn zeta in C.
  destruct (get_page env page 3 st) as [r st1]; cbn [fst snd] in *.
  destruct C as [(e & _ & C)|[C|(n & rq & data & Hr & C)]].
  - congruence.
  - subst r. exists [], 1%Q, st1. split; auto.
    rewrite Zle_Qle in B_pos. exact B_pos.
  - specialize (pages_wf n rq). rewrite Hr in pages_wf.
    destruct (page_result_shaped B data B_pos pages_wf)
      as (l & q & Hres & Hq).
    exists l, q, st1. split; auto. congruence.
Qed.

Lemma loop_body_shaped (ls : locals) (st : state) :
  exists ls' b st',
    loop_body env ls st = (Normal (ls', b), st') /\ bound_within B ls' st'.
Proof.
  destruct (get_page_shaped (current_page ls) st)
    as (l & q & st1 & Hg & Hq).
  rewrite loop_body_unfold, Hg.
  destruct l as [|item rest]; cbn [truthy iterate].
  - destruct (MAX_ERROR <=? error_counter ls + 1);
      eexists _, _, _; (split; [reflexivity|]); exists q; cbn; auto.
  - eexists _, _, _. split; [reflexivity|]. exists q. cbn. auto.
Qed.

Lemma while_loop_shaped (ls : locals) (st : state) :
  bound_within B ls st ->
  exists fuel ls' st',
    while_loop env fuel ls st = Some (Normal ls', st').
Proof.
  intros HI.
  destruct (while_loop_invariant env (bound_within B)
              (fun ls => Z.to_nat (B + 1 - current_page ls)))
    with (k := Z.to_nat (B + 1 - current_page ls)) (ls := ls) (st := st)
    as (ls' & st' & Hrun & _); auto.
  - intros ls0 st0 (q & Hq & _). unfold page_le. rewrite Hq. cbn. eauto.
  - intros ls0 st0 HI0 Hc.
    destruct (loop_body_shaped ls0 st0) as (ls' & b & st' & Hb & HI').
    exists ls', b, st'. split; [exact Hb|]. split; [exact HI'|].
    pose proof (loop_body_progress env ls0 st0) as (_ & P).
    rewrite Hb in P. destruct (P ls' b eq_refl) as (Hcur & _).
    destruct HI0 as (q & Hq & Hle).
    unfold page_le in Hc. rewrite Hq in Hc. cbn in Hc.
    inversion Hc as [Hc']. apply Qle_bool_iff in Hc'.
    assert (H : (inject_Z (current_page ls0) <= inject_Z B)%Q) by lra.
    rewrite <- Zle_Qle in H. cbn beta. lia.
  - eauto.
Qed.

End WellShaped.

(** ** Runs in which every exchange succeeds *)

Lemma items_upto_S (pg : Z -> list value) (n : nat) :
  items_upto pg (S n) = items_upto pg n ++ pg (Z.of_nat n + 1).
Proof.
  unfold items_upto. rewrite seq_S, map_app, concat_app.
  change (1 + n)%nat with (S n). cbn [map List.concat].
  rewrite app_nil_r. do 2 f_equal. lia.
Qed.

Lemma page_le_number (p T : Z) :
  page_le p (VNum (inject_Z T)) = Normal (p <=? T).
Proof.
  unfold page_le. cbn [as_number]. f_equal.
  destruct (p <=? T) eqn:E.
  - apply Qle_bool_iff. rewrite <- Zle_Qle. apply Z.leb_le. exact E.
  - destruct (Qle_bool _ _) eqn:E'; [|reflexivity].
    apply Qle_bool_iff in E'. rewrite <- Zle_Qle in E'.
    apply Z.leb_gt in E. lia.
Qed.

Section AllSucceed.

Variable env : Env.
Variable pg : Z -> list value.
Variable T : Z.
Hypothesis T_pos : 1 <= T.
Hypothesis auth_ok : auth_always_succeeds env.
Hypothesis pages_ok : pages_always_succeed env pg T.

Lemma get_token_succeeds (st : state) :
  exists st1,
    get_token env st = (Normal tt, st1) /\ is_none (url st1) = false.
Proof.
  destruct (auth_ok (auth_posts st)) as (b & u & Hr & Hb & Hu & Hn).
  destruct (get_token_body_ok env st b Hr Hb)
    as (st1 & Hg & _ & _ & _ & Hu' & _).
  exists st1. split; [exact Hg|]. congruence.
Qed.

Lemma validate_token_succeeds (st : state) :
  is_none (url st) = false ->
  exists st1,
    validate_token env st = (Normal tt, st1) /\ is_none (url st1) = false.
Proof.
  intros Hu. rewrite validate_token_unfold.
  destruct (needs_refresh env st).
  - destruct (is_none (token st)); apply get_token_succeeds.
  - eexists. split; [reflexivity | exact Hu].
Qed.

(** One call of [get_page]: one request, for the page asked, answered at
    the first attempt. *)
Lemma get_page_succeeds (page : Z) (st : state) :
  is_none (url st) = false ->
  exists st1 rq,
    get_page env page 3 st =
      (Normal (Some (VList (pg page), VNum (inject_Z T))), st1) /\
    is_none (url st1) = false /\
    all_items st1 = all_items st /\
    page_calls st1 = S (page_calls st) /\
    page_posts st1 = page_posts st ++ [rq] /\ rq_page rq = page.
Proof.
  intros Hu.
  pose proof (validate_token_frame env (log_page_call st)) as F.
  cbn in F. destruct F as (Fi & Fp & Fc & _).
  destruct (validate_token_succeeds (log_page_call st) Hu) as (st1 & Hv & Hu1).
  rewrite Hv in Fi, Fp, Fc. cbn [snd] in Fi, Fp, Fc.
  rewrite get_page_unfold, Hv, attempts_S. cbn zeta. rewrite Hu1.
  match goal with |- context [page_reply env ?n ?r] =>
    destruct (pages_ok n r) as (data & Hr & Hi & Ht); rewrite Hr;
    exists (log_page_post r st1), r end.
  unfold page_result. rewrite Hi, Ht. cbn.
  repeat split; auto. rewrite Fp. reflexivity.
Qed.

Hypothesis not_five : no_five_empty pg T.

Lemma loop_body_succeeds (ls : locals) (st0 st : state) :
  fetched pg T st0 ls st ->
  page_le (current_page ls) (total_pages ls) = Normal true ->
  exists ls' st',
    loop_body env ls st = (Normal (ls', false), st') /\
    fetched pg T st0 ls' st' /\
    current_page ls' = current_page ls + 1 /\ current_page ls <= T.
Proof.
  intros (n & Hcur & Hn & Htot & Hec & Hecn & Hempty & Hu & Hitems & Hcalls
          & Hposts) Hc.
  assert (HcurT : current_page ls <= T).
  { destruct Htot as [[-> _]|Htot]; [lia|].
    rewrite Htot, page_le_number in Hc. inversion Hc as [Hc'].
    apply Z.leb_le. exact Hc'. }
  destruct (get_page_succeeds (current_page ls) st Hu)
    as (st1 & rq & Hg & Hu1 & Hi1 & Hc1 & Hp1 & Hrq).
  rewrite loop_body_unfold, Hg.
  destruct (pg (current_page ls)) as [|item rest] eqn:Epg; cbn [truthy iterate].
  - assert (Hlt : error_counter ls + 1 < MAX_ERROR).
    { unfold MAX_ERROR.
      destruct (Z.eq_dec (error_counter ls) 4) as [E4|]; [|lia].
      exfalso.
      destruct (not_five (current_page ls - 4)) as (k & Hk & Hne); try lia.
      apply Hne.
      destruct (Z.eq_dec k 4) as [->|Hk4].
      - replace (current_page ls - 4 + 4) with (current_page ls) by lia.
        exact Epg.
      - replace (current_page ls - 4 + k)
          with (current_page ls - (4 - k)) by lia.
        apply Hempty. lia. }
    pose proof Hlt as Hlt'. unfold MAX_ERROR in Hlt'.
    apply Z.leb_gt in Hlt. rewrite Hlt.
    eexists _, _. split; [reflexivity|]. split; [|split; [reflexivity|exact HcurT]].
    exists (S n). cbn -[items_upto seq Z.of_nat Z.add Z.sub].
    repeat split; try lia.
    + right. reflexivity.
    + intros k Hk. destruct (Z.eq_dec k 1) as [->|Hk1].
      * replace (current_page ls + 1 - 1) with (current_page ls) by lia.
        exact Epg.
      * replace (current_page ls + 1 - k)
          with (current_page ls - (k - 1)) by lia.
        apply Hempty. lia.
    + exact Hu1.
    + rewrite items_upto_S, <- Hcur, Epg, app_nil_r. congruence.
    + rewrite Hp1, map_app, seq_S, map_app, Hposts, <- app_assoc. cbn.
      rewrite Hrq, Hcur. do 3 f_equal. lia.
  - eexists _, _. split; [reflexivity|]. split; [|split; [reflexivity|exact HcurT]].
    exists (S n). cbn -[items_upto seq Z.of_nat Z.add Z.sub].
    repeat split; try lia.
    + right. reflexivity.
    + exact Hu1.
    + rewrite items_upto_S, <- Hcur, Epg, Hi1, Hitems, <- app_assoc.
      reflexivity.
    + rewrite Hp1, map_app, seq_S, map_app, Hposts, <- app_assoc. cbn.
      rewrite Hrq, Hcur. do 3 f_equal. lia.
Qed.

Lemma while_loop_succeeds (st0 st : state) :
  fetched pg T st0 (mkLocals 1 (VNum 1%Q) 0) st ->
  exists fuel ls' st',
    while_loop env fuel (mkLocals 1 (VNum 1%Q) 0) st =
      Some (Normal ls', st') /\
    fetched pg T st0 ls' st' /\ current_page ls' = T + 1.
Proof.
  intros HI.
  destruct (while_loop_invariant env (fetched pg T st0)
              (fun ls => Z.to_nat (T + 1 - current_page ls)))
    with (k := Z.to_nat T) (ls := mkLocals 1 (VNum 1%Q) 0) (st := st)
    as (ls' & st' & Hrun & HI' & Hexit); auto.
  - intros ls st1 (n & _ & _ & [[_ ->]| ->] & _).
    + eexists. reflexivity.
    + rewrite page_le_number. eauto.
  - intros ls st1 HI1 Hc.
    destruct (loop_body_succeeds ls st0 st1 HI1 Hc)
      as (ls' & st' & Hb & HI' & Hnext & Hle).
    exists ls', false, st'. split; [exact Hb|]. split; [exact HI'|].
    cbn beta. lia.
  - cbn. lia.
  - exists (S (Z.to_nat T)), ls', st'.
    split; [exact Hrun|]. split; [exact HI'|].
    destruct HI' as (n & Hcur & Hn & Htot & Hec & _).
    destruct Hexit as [Hexit|Hexit]; [|unfold MAX_ERROR in Hexit; lia].
    destruct Htot as [[-> Htot]|Htot].
    + rewrite Htot in Hexit. cbn in Hcur. rewrite Hcur in Hexit.
      cbn in Hexit. discriminate.
    + rewrite Htot, page_le_number in Hexit. inversion Hexit as [Hexit'].
      apply Z.leb_gt in Hexit'. lia.
Qed.

End AllSucceed.

(** ** Effort of one fetch *)

Section Effort.

Variable env : Env.

(** Entered as [get_page] enters it, the retry loop posts [k] requests,
    between one and [r], and sleeps [k - 1] times: never after the last
    attempt. *)
Lemma attempts_effort (tok rid : value) (page : Z) (mr : nat) :
  forall (r : nat) (a : Z) (st : state),
    (0 < r)%nat -> a + Z.of_nat r = Z.of_nat mr + 1 ->
    let st' := snd (attempts env tok rid page mr r a st) in
    exists k, (0 < k <= r)%nat /\
      List.length (page_posts st') = (List.length (page_posts st) + k)%nat /\
      (sleeps st' + 1 = sleeps st + k)%nat.
Proof.
  induction r as [|r IH]; intros a st Hr Ha; [lia|].
  rewrite attempts_S. cbn zeta.
  destruct (if is_none (url st) then _ else _) as [|data].
  - destruct (a <? Z.of_nat mr) eqn:E.
    + apply Z.ltb_lt in E.
      specialize (IH (a + 1)
        (log_sleep (log_print (AttemptFailed a page)
           (log_page_post (mkRequest (url st) tok rid page) st)))
        ltac:(lia) ltac:(lia)).
      cbn zeta in IH. destruct IH as (k & Hk & Hp & Hs).
      exists (S k). split; [lia|].
      rewrite Hp. cbn [page_posts log_sleep log_print log_page_post sleeps]
        in *. rewrite length_app in *. cbn [List.length] in *. lia.
    + exists 1%nat. cbn. rewrite length_app. cbn. lia.
  - exists 1%nat. cbn. rewrite length_app. cbn. lia.
Qed.

(** After [j] failed exchanges the next one answers: the loop returns what
    that body gives, having posted [j + 1] requests and slept [j] times. *)
Lemma attempts_answer_after (tok rid : value) (page : Z) (mr : nat)
    (data : value) :
  forall (j r : nat) (a : Z) (st : state),
    (j < r)%nat -> a + Z.of_nat r = Z.of_nat mr + 1 ->
    (forall k, (k < j)%nat ->
       exchange_fails env (List.length (page_posts st) + k)
         (mkRequest (url st) tok rid page)) ->
    is_none (url st) = false ->
    page_reply env (List.length (page_posts st) + j)
      (mkRequest (url st) tok rid page) = Body data ->
    exists st',
      attempts env tok rid page mr r a st = (page_result data, st') /\
      client_of st' = client_of st /\
      auth_posts st' = auth_posts st /\
      page_calls st' = page_calls st /\
      sleeps st' = (sleeps st + j)%nat /\
      page_posts st' =
        page_posts st ++ repeat (mkRequest (url st) tok rid page) (S j).
Proof.
  induction j as [|j IH]; intros r a st Hj Ha Hfail Hu Hans.
  - destruct r as [|r]; [lia|]. rewrite attempts_S. cbn zeta.
    rewrite Hu, Nat.add_0_r in *. rewrite Hans.
    eexists. repeat split.
  - destruct r as [|r]; [lia|]. rewrite attempts_S. cbn zeta. rewrite Hu.
    destruct (Hfail 0%nat ltac:(lia)) as [H|H]; cbn in H; [congruence|].
    rewrite Nat.add_0_r in H. rewrite H.
    assert (E : (a <? Z.of_nat mr) = true) by (apply Z.ltb_lt; lia).
    rewrite E.
    destruct (IH r (a + 1)
      (log_sleep (log_print (AttemptFailed a page)
         (log_page_post (mkRequest (url st) tok rid page) st))))
      as (st' & Hrun & Hc & Hauth & Hpc & Hs & Hp); try lia.
    + intros k Hk. cbn. rewrite length_app. cbn.
      replace (List.length (page_posts st) + 1 + k)%nat
        with (List.length (page_posts st) + S k)%nat by lia.
      apply Hfail. lia.
    + exact Hu.
    + cbn. rewrite length_app. cbn.
      replace (List.length (page_posts st) + 1 + j)%nat
        with (List.length (page_posts st) + S j)%nat by lia.
      exact Hans.
    + exists st'. split; [exact Hrun|]. cbn in Hc, Hauth, Hpc, Hs, Hp.
      repeat split; auto; [lia|].
      rewrite Hp. rewrite <- app_assoc. reflexivity.
Qed.

(** The sleeps of a loop in which every exchange fails. *)
Lemma attempts_all_fail_sleeps (tok rid : value) (page : Z) (mr : nat) :
  forall (r : nat) (a : Z) (st : state),
    (0 < r)%nat -> a + Z.of_nat r = Z.of_nat mr + 1 ->
    (forall k, (k < r)%nat ->
       exchange_fails env (List.length (page_posts st) + k)
         (mkRequest (url st) tok rid page)) ->
    (sleeps (snd (attempts env tok rid page mr r a st)) + 1 =
     sleeps st + r)%nat.
Proof.
  intros r a st Hr Ha Hfail.
  pose proof (attempts_effort tok rid page mr r a st Hr Ha) as E.
  destruct (attempts_all_fail env tok rid page mr r a st Hr Ha Hfail)
    as (st' & Hrun & _ & _ & _ & Hp).
  cbn zeta in E. rewrite Hrun in *. cbn [snd] in *.
  destruct E as (k & Hk & Hlen & Hs).
  rewrite Hp, length_app, repeat_length in Hlen. lia.
Qed.

(** One call of [get_page] costs at most one authentication exchange,
    [max_retries] requests and [max_retries - 1] sleeps. *)
Lemma get_page_effort (page : Z) (mr : nat) (st : state) :
  (0 < mr)%nat ->
  let st' := snd (get_page env page mr st) in
  page_calls st' = S (page_calls st) /\
  (auth_posts st <= auth_posts st' <= S (auth_posts st))%nat /\
  (List.length (page_posts st) <= List.length (page_posts st') <=
   List.length (page_posts st) + mr)%nat /\
  (sleeps st <= sleeps st' /\ sleeps st' + 1 <= sleeps st + mr)%nat /\
  all_items st' = all_items st.
Proof.
  intros Hmr.
  pose proof (get_page_frame env page mr st) as (Fi & Fc).
  rewrite get_page_unfold in *.
  pose proof (validate_token_frame env (log_page_call st)) as V.
  cbn in V. destruct V as (_ & Vp & _ & Vs & Va & _).
  destruct (validate_token env (log_page_call st)) as [[[]|e] st1];
    cbn [snd] in *.
  - pose proof (attempts_frame env (token st1) (req_id st1) page mr mr 1 st1)
      as F.
    pose proof (attempts_effort (token st1) (req_id st1) page mr mr 1 st1
                  Hmr ltac:(lia)) as E.
    cbn zeta in F, E. destruct F as (_ & Fa & _ & _ & _).
    destruct E as (k & Hk & Hlen & Hsl).
    rewrite Vp in Hlen. rewrite Vs in Hsl.
    repeat split; auto; try lia.
  - rewrite Vp, Vs. repeat split; auto; try lia.
Qed.

End Effort.

(** ** The loop, whatever happens *)

Section AnyOutcome.

Variable env : Env.

(** A pass that returns either reset the error counter or added one to it,
    and breaks exactly when the counter has reached the ceiling. *)
Lemma loop_body_counter (ls : locals) (st : state) :
  forall ls' b, fst (loop_body env ls st) = Normal (ls', b) ->
    (error_counter ls' = 0 \/ error_counter ls' = error_counter ls + 1) /\
    b = (MAX_ERROR <=? error_counter ls').
Proof.
  rewrite loop_body_unfold.
  destruct (get_page env (current_page ls) 3 st) as [[[[items total]|]|e] st1];
    cbn [fst]; try discriminate.
  destruct (truthy items).
  - destruct (iterate items); intros ls' b H; inversion H; subst; cbn; auto.
  - destruct (MAX_ERROR <=? error_counter ls + 1) eqn:E; intros ls' b H;
      inversion H; subst; cbn; auto.
Qed.

Lemma effort_within_refl (st : state) : effort_within st st.
Proof.
  unfold effort_within. repeat split; try lia.
  exists []. rewrite app_nil_r. reflexivity.
Qed.

Lemma effort_within_trans (a b c : state) :
  effort_within a b -> effort_within b c -> effort_within a c.
Proof.
  intros (H1 & H2 & H3 & H4 & H5 & l & Hl) (G1 & G2 & G3 & G4 & G5 & m & Hm).
  unfold effort_within. repeat split; try lia.
  exists (l ++ m). rewrite Hm, Hl, app_assoc. reflexivity.
Qed.

Lemma loop_body_effort (ls : locals) (st : state) :
  effort_within st (snd (loop_body env ls st)).
Proof.
  rewrite loop_body_unfold.
  pose proof (get_page_effort env (current_page ls) 3 st ltac:(lia)) as E.
  cbn zeta in E.
  destruct (get_page env (current_page ls) 3 st) as [[[[items total]|]|e] st1];
    cbn [snd] in *; destruct E as (Ec & Ea & Ep & Es & Ei).
  - assert (Base : effort_within st st1).
    { unfold effort_within. repeat split; try lia.
      exists []. rewrite app_nil_r. exact Ei. }
    destruct (truthy items).
    + destruct (iterate items) as [l|]; cbn [snd]; [|exact Base].
      unfold effort_within in *. cbn. repeat split; try lia.
      exists l. rewrite Ei. reflexivity.
    + destruct (MAX_ERROR <=? error_counter ls + 1); cbn [snd];
        unfold effort_within in *; cbn; repeat split; try lia;
        exists []; rewrite app_nil_r; exact Ei.
  - unfold effort_within. repeat split; try lia.
    exists []. rewrite app_nil_r. exact Ei.
  - unfold effort_within. repeat split; try lia.
    exists []. rewrite app_nil_r. exact Ei.
Qed.

(** Whatever relation every pass respects, the loop respects, however it
    ends. *)
Lemma while_loop_relation (R : state -> state -> Prop) :
  (forall st, R st st) ->
  (forall a b c, R a b -> R b c -> R a c) ->
  (forall ls st, R st (snd (loop_body env ls st))) ->
  forall (fuel : nat) (ls : locals) (st : state) r st',
    while_loop env fuel ls st = Some (r, st') -> R st st'.
Proof.
  intros Hrefl Htrans Hbody.
  induction fuel as [|fuel IH]; intros ls st r st' H; [discriminate|].
  cbn [while_loop] in H.
  destruct (page_le _ _) as [[|]|];
    try (inversion H; subst; apply Hrefl).
  specialize (Hbody ls st).
  destruct (loop_body env ls st) as [[[ls1 []]|e] st1]; cbn [snd] in Hbody.
  - inversion H; subst. exact Hbody.
  - eapply Htrans; [exact Hbody|]. eapply IH. exact H.
  - inversion H; subst. exact Hbody.
Qed.

(** When the loop ends normally, [get_page] was called once for each page
    number the loop went past, and the error counter is within the
    ceiling. *)
Lemma while_loop_accounts :
  forall (fuel : nat) (ls : locals) (st : state) ls' st',
    while_loop env fuel ls st = Some (Normal ls', st') ->
    0 <= error_counter ls < MAX_ERROR ->
    Z.of_nat (page_calls st') - Z.of_nat (page_calls st) =
      current_page ls' - current_page ls /\
    current_page ls <= current_page ls' /\
    0 <= error_counter ls' <= MAX_ERROR.
Proof.
  induction fuel as [|fuel IH]; intros ls st ls' st' H Hec; [discriminate|].
  cbn [while_loop] in H.
  destruct (page_le _ _) as [[|]|]; try discriminate.
  - pose proof (loop_body_progress env ls st) as (Hpc & P).
    pose proof (loop_body_counter ls st) as C.
    destruct (loop_body env ls st) as [[[ls1 b]|e] st1]; cbn [fst snd] in *;
      [|discriminate].
    destruct (P ls1 b eq_refl) as (Hcur & _).
    destruct (C ls1 b eq_refl) as (Hc1 & Hb).
    destruct b.
    + inversion H; subst. symmetry in Hb. apply Z.leb_le in Hb.
      unfold MAX_ERROR in *. lia.
    + symmetry in Hb. apply Z.leb_gt in Hb.
      destruct (IH ls1 st1 ls' st' H) as (Hcalls & Hle & Hec').
      * unfold MAX_ERROR in *. lia.
      * lia.
  - inversion H; subst. unfold MAX_ERROR in *. lia.
Qed.

End AnyOutcome.

(** ** The sum and the report *)

Lemma sum_temperatures_raises (items : list value) :
  forallb has_temperature items = false ->
  forall acc, exists e, sum_temperatures acc items = Raise e.
Proof.
  induction items as [|item rest IH]; intros H acc; cbn in *; [discriminate|].
  unfold has_temperature in H.
  destruct (subscript item "temperature_noon_c") as [v|e]; [|eauto].
  destruct (as_number v) as [q|]; [|eauto].
  cbn in H. apply IH. exact H.
Qed.


(** [report] only prints. *)
Lemma report_frame (st : state) :
  let st' := snd (report st) in
  client_of st' = client_of st /\ auth_posts st' = auth_posts st /\
  page_posts st' = page_posts st /\ sleeps st' = sleeps st /\
  page_calls st' = page_calls st.
Proof.
  unfold report. unfold_monad.
  destruct (all_items st) as [|item rest] eqn:E;
    cbn -[sum_temperatures format_3f].
  - unfold client_of. cbn. rewrite E. repeat split.
  - destruct (sum_temperatures 0 (item :: rest));
      cbn -[sum_temperatures format_3f];
      unfold client_of; cbn -[sum_temperatures format_3f];
      rewrite ?E; repeat split.
Qed.

(** ** One fetch after the token check *)

Section AfterCheck.

Variable env : Env.

(** What [get_page] does once the token check has returned. *)
Lemma get_page_after_check (page : Z) (mr : nat) (st st1 : state) :
  validate_token env st = (Normal tt, st1) ->
  get_page env page mr st =
    attempts env (token st1) (req_id st1) page mr mr 1 (log_page_call st1) /\
  page_posts st1 = page_posts st /\ sleeps st1 = sleeps st /\
  all_items st1 = all_items st /\ page_calls st1 = page_calls st.
Proof.
  intros Hv.
  pose proof (validate_token_frame env st) as F. cbn zeta in F.
  rewrite Hv in F. cbn [snd] in F. destruct F as (Fi & Fp & Fc & Fs & _).
  rewrite get_page_unfold, validate_token_log_page_call, Hv. cbn [fst snd].
  auto.
Qed.

(** A token check that has to refresh makes one exchange. *)
Lemma validate_token_refreshes_needed (st : state) :
  needs_refresh env st = true ->
  auth_posts (snd (validate_token env st)) = S (auth_posts st).
Proof.
  intros Hn. rewrite validate_token_unfold, Hn.
  destruct (is_none (token st)).
  - apply get_token_frame.
  - pose proof (get_token_frame env (log_clock_read st)) as F.
    cbn zeta in F. destruct F as (_ & _ & _ & _ & F & _). exact F.
Qed.

End AfterCheck.

(** ** The order of the page requests *)

Lemma sorted_constant (c : Z) (l : list Z) :
  Forall (fun x => x = c) l -> StronglySorted Z.le l.
Proof.
  induction 1 as [|x l Hx Hl IH]; constructor; [exact IH|].
  subst x. eapply Forall_impl; [|exact Hl]. intros y ->. lia.
Qed.

Lemma sorted_app (c : Z) (l1 l2 : list Z) :
  StronglySorted Z.le l1 -> StronglySorted Z.le l2 ->
  Forall (fun x => x <= c) l1 -> Forall (fun y => c <= y) l2 ->
  StronglySorted Z.le (l1 ++ l2).
Proof.
  intros H1 H2 Hle Hge.
  induction H1 as [|x l1 Hs IH Hall]; cbn; [exact H2|].
  inversion Hle as [|? ? Hx Hl]; subst.
  constructor; [apply IH; exact Hl|].
  apply Forall_app. split; [exact Hall|].
  eapply Forall_impl; [|exact Hge]. intros y Hy. cbn in Hy. lia.
Qed.

Section Requests.

Variable env : Env.

(** Every request of a call of [get_page] asks for the page it was called
    for. *)
Lemma get_page_requests (page : Z) (mr : nat) (st : state) :
  exists new,
    page_posts (snd (get_page env page mr st)) = page_posts st ++ new /\
    Forall (fun rq => rq_page rq = page) new.
Proof.
  rewrite get_page_unfold.
  pose proof (validate_token_frame env (log_page_call st)) as V.
  cbn in V. destruct V as (_ & Vp & _).
  destruct (validate_token env (log_page_call st)) as [[[]|e] st1];
    cbn [snd] in *.
  - pose proof (attempts_frame env (token st1) (req_id st1) page mr mr 1 st1)
      as F.
    cbn zeta in F. destruct F as (_ & _ & _ & _ & k & _ & _ & Hp).
    eexists. split; [rewrite Hp, Vp; reflexivity|].
    apply Forall_forall. intros rq Hin. apply repeat_spec in Hin.
    subst rq. reflexivity.
  - exists []. rewrite app_nil_r. split; [exact Vp | constructor].
Qed.

Lemma loop_body_requests (ls : locals) (st : state) :
  exists new,
    page_posts (snd (loop_body env ls st)) = page_posts st ++ new /\
    Forall (fun rq => rq_page rq = current_page ls) new.
Proof.
  rewrite loop_body_unfold.
  destruct (get_page_requests (current_page ls) 3 st) as (new & Hp & Hall).
  exists new. split; [|exact Hall].
  destruct (get_page env (current_page ls) 3 st) as [[[[items total]|]|e] st1];
    cbn [snd] in *; try exact Hp.
  destruct (truthy items).
  - destruct (iterate items); cbn; exact Hp.
  - destruct (MAX_ERROR <=? error_counter ls + 1); cbn; exact Hp.
Qed.

(** When the loop ends normally, the requests it has made ask for pages
    in non-decreasing order, all between the page it started at and the
    page before the one it stopped at. *)
Lemma while_loop_requests :
  forall (fuel : nat) (ls : locals) (st : state) ls' st',
    while_loop env fuel ls st = Some (Normal ls', st') ->
    current_page ls <= current_page ls' /\
    exists new,
      page_posts st' = page_posts st ++ new /\
      StronglySorted Z.le (map rq_page new) /\
      Forall (fun rq => current_page ls <= rq_page rq < current_page ls') new.
Proof.
  induction fuel as [|fuel IH]; intros ls st ls' st' H; [discriminate|].
  cbn [while_loop] in H.
  destruct (page_le _ _) as [[|]|]; try discriminate.
  - pose proof (loop_body_progress env ls st) as (_ & P).
    destruct (loop_body_requests ls st) as (new1 & Hp1 & Hall1).
    destruct (loop_body env ls st) as [[[ls1 b]|e] st1]; cbn [fst snd] in *;
      [|discriminate].
    destruct (P ls1 b eq_refl) as (Hcur & _).
    assert (S1 : StronglySorted Z.le (map rq_page new1)).
    { apply (sorted_constant (current_page ls)).
      apply Forall_map. exact Hall1. }
    destruct b.
    + inversion H; subst. split; [lia|].
      exists new1. split; [exact Hp1|]. split; [exact S1|].
      eapply Forall_impl; [|exact Hall1]. cbn. intros rq Hrq. lia.
    + destruct (IH ls1 st1 ls' st' H) as (Hle & new2 & Hp2 & S2 & Hall2).
      split; [lia|].
      exists (new1 ++ new2). split; [rewrite Hp2, Hp1, app_assoc; reflexivity|].
      split.
      * rewrite map_app.
        apply (sorted_app (current_page ls)); auto.
        -- apply Forall_map. eapply Forall_impl; [|exact Hall1].
           cbn. intros rq Hrq. lia.
        -- apply Forall_map. eapply Forall_impl; [|exact Hall2].
           cbn. intros rq Hrq. lia.
      * apply Forall_app. split.
        -- eapply Forall_impl; [|exact Hall1]. cbn. intros rq Hrq. lia.
        -- eapply Forall_impl; [|exact Hall2]. cbn. intros rq Hrq. lia.
  - inversion H; subst. split; [lia|].
    exists []. rewrite app_nil_r. repeat split; constructor.
Qed.

End Requests.

(** ** One block of requests per page *)

Section Blocks.

Variable env : Env.

(** A call of [get_page] that returns has posted between one and
    [max_retries] requests, all for the page it was called for. *)
Lemma get_page_block (page : Z) (mr : nat) (st : state) r :
  (0 < mr)%nat ->
  fst (get_page env page mr st) = Normal r ->
  exists k, (1 <= k <= mr)%nat /\
    map rq_page (page_posts (snd (get_page env page mr st))) =
      map rq_page (page_posts st) ++ repeat page k.
Proof.
  intros Hmr. rewrite get_page_unfold.
  pose proof (validate_token_frame env (log_page_call st)) as V.
  cbn in V. destruct V as (_ & Vp & _).
  destruct (validate_token env (log_page_call st)) as [[[]|e] st1];
    cbn [fst snd] in *; [|discriminate].
  intros _.
  pose proof (attempts_frame env (token st1) (req_id st1) page mr mr 1 st1)
    as F.
  cbn zeta in F. destruct F as (_ & _ & _ & _ & k & Hle & Hpos & Hp).
  exists k. split; [specialize (Hpos Hmr); lia|].
  rewrite Hp, Vp, map_app, map_repeat. reflexivity.
Qed.

Lemma loop_body_block (ls : locals) (st : state) r :
  fst (loop_body env ls st) = Normal r ->
  exists k, (1 <= k <= 3)%nat /\
    map rq_page (page_posts (snd (loop_body env ls st))) =
      map rq_page (page_posts st) ++ repeat (current_page ls) k.
Proof.
  rewrite loop_body_unfold.
  pose proof (get_page_block (current_page ls) 3 st) as G.
  destruct (get_page env (current_page ls) 3 st) as [[[[items total]|]|e] st1];
    cbn [fst snd] in *; try discriminate.
  destruct (G _ ltac:(lia) eq_refl) as (k & Hk & Hp).
  destruct (truthy items).
  - destruct (iterate items); cbn [fst snd]; [|discriminate].
    intros _. exists k. split; [exact Hk | exact Hp].
  - destruct (MAX_ERROR <=? error_counter ls + 1); cbn [fst snd];
      intros _; exists k; (split; [exact Hk | exact Hp]).
Qed.

(** When the loop ends normally it has made one call of [get_page], and
    one block of requests, for each page it went past. *)
Lemma while_loop_blocks :
  forall (fuel : nat) (ls : locals) (st : state) ls' st',
    while_loop env fuel ls st = Some (Normal ls', st') ->
    exists ks : list nat,
      Z.of_nat (List.length ks) = current_page ls' - current_page ls /\
      Forall (fun k => (1 <= k <= 3)%nat) ks /\
      page_calls st' = (page_calls st + List.length ks)%nat /\
      map rq_page (page_posts st') =
        map rq_page (page_posts st) ++ page_blocks (current_page ls) ks.
Proof.
  induction fuel as [|fuel IH]; intros ls st ls' st' H; [discriminate|].
  cbn [while_loop] in H.
  destruct (page_le _ _) as [[|]|]; try discriminate.
  - pose proof (loop_body_progress env ls st) as (Hpc & P).
    pose proof (loop_body_block ls st) as Bk.
    destruct (loop_body env ls st) as [[[ls1 b]|e] st1]; cbn [fst snd] in *;
      [|discriminate].
    destruct (P ls1 b eq_refl) as (Hcur & _).
    destruct (Bk _ eq_refl) as (k & Hk & Hp1).
    destruct b.
    + inversion H; subst. exists [k]. cbn [List.length page_blocks].
      rewrite app_nil_r, Hpc, Hp1. repeat split; auto; try lia.
    + destruct (IH ls1 st1 ls' st' H) as (ks & Hlen & Hks & Hcalls & Hp).
      exists (k :: ks). cbn [List.length page_blocks].
      rewrite Hcalls, Hp, Hpc, Hp1, Hcur, <- app_assoc.
      repeat split; auto; lia.
  - inversion H; subst. exists []. cbn. rewrite app_nil_r.
    repeat split; auto; lia.
Qed.

End Blocks.

(** * The claims *)

(** C7.  When the authentication exchange fails at the network level,
    [get_token] returns normally, with the same (unit) result a successful
    refresh gives and no exception, and leaves the token [None]. *)
Theorem get_token_swallows_network_failure (env : Env) (st : state) :
  auth_reply env (auth_posts st) = TransportError ->
  fst (get_token env st) = Normal tt /\
  token (snd (get_token env st)) = VNone.
Proof.
  intros H. rewrite get_token_transport_error by assumption.
  split; reflexivity.
Qed.

Lemma get_token_swallows_network_failure_witness :
  auth_reply env_auth_down (auth_posts authenticated) = TransportError /\
  fst (get_token env_auth_down authenticated) = Normal tt /\
  token (snd (get_token env_auth_down authenticated)) = VNone.
Proof.
  split; [reflexivity|].
  apply (get_token_swallows_network_failure env_auth_down authenticated).
  reflexivity.
Defined.

(** C9.  A refresh that fails at the network level changes only the token
    field: the issue time, city, request identifier, data URL and collected
    items keep their values.  Hence a [get_page] whose token check runs
    into such a failure posts its requests (at least one, when retries are
    allowed) to the previous data URL with the previous request
    identifier, and with no token. *)
Theorem failed_refresh_changes_only_token (env : Env) (st : state) :
  auth_reply env (auth_posts st) = TransportError ->
  (token (snd (get_token env st)) = VNone /\
   token_time (snd (get_token env st)) = token_time st /\
   city (snd (get_token env st)) = city st /\
   req_id (snd (get_token env st)) = req_id st /\
   url (snd (get_token env st)) = url st /\
   all_items (snd (get_token env st)) = all_items st) /\
  (forall (page : Z) (max_retries : nat),
     needs_refresh env st = true -> (0 < max_retries)%nat ->
     exists k, (0 < k <= max_retries)%nat /\
       page_posts (snd (get_page env page max_retries st)) =
         page_posts st ++
         repeat (mkRequest (url st) VNone (req_id st) page) k).
Proof.
  intros H. split.
  - rewrite get_token_transport_error by assumption. cbn. repeat split.
  - intros page mr Hn Hmr.
    rewrite get_page_unfold, validate_token_unfold.
    change (needs_refresh env (log_page_call st)) with (needs_refresh env st).
    rewrite Hn.
    assert (E : exists st1,
      (if is_none (token (log_page_call st))
       then get_token env (log_page_call st)
       else get_token env (log_clock_read (log_page_call st))) =
        (Normal tt, st1) /\
      token st1 = VNone /\ req_id st1 = req_id st /\ url st1 = url st /\
      page_posts st1 = page_posts st).
    { destruct (is_none (token (log_page_call st)));
        rewrite get_token_transport_error by exact H;
        eexists; repeat split. }
    destruct E as (st1 & -> & Ht & Hr & Hu & Hp).
    pose proof (attempts_frame env (token st1) (req_id st1) page mr mr 1 st1)
      as F.
    cbn zeta in F. destruct F as (_ & _ & _ & _ & k & Hle & Hpos & Hposts).
    exists k. split; [split; [auto | exact Hle]|].
    rewrite Hposts, Ht, Hr, Hu, Hp. reflexivity.
Qed.

Lemma failed_refresh_changes_only_token_witness :
  auth_reply env_auth_down_late (auth_posts authenticated) = TransportError /\
  needs_refresh env_auth_down_late authenticated = true /\
  url (snd (get_token env_auth_down_late authenticated)) =
    VStr "https://example.test/data" /\
  req_id (snd (get_token env_auth_down_late authenticated)) = VStr "req-1" /\
  exists k, (0 < k <= 3)%nat /\
    page_posts (snd (get_page env_auth_down_late 2 3 authenticated)) =
      repeat (mkRequest (VStr "https://example.test/data") VNone
                (VStr "req-1") 2) k.
Proof.
  pose proof (failed_refresh_changes_only_token env_auth_down_late
                authenticated eq_refl) as [(_ & _ & _ & Hr & Hu & _) Hpage].
  split; [reflexivity|]. split; [reflexivity|].
  split; [exact Hu|]. split; [exact Hr|].
  exact (Hpage 2 3%nat eq_refl ltac:(lia)).
Defined.

(** C4.  When the token check returns and every one of the three
    exchanges for the current page fails, the pass through the loop body
    adds nothing to the collected items, adds exactly one to the error
    counter and moves on to the next page number; the three requests all
    ask for the failed page, and the pass counts as a single fetch. *)
Theorem failed_page_counts_one_error (env : Env) (ls : locals)
    (st st1 : state) :
  validate_token env st = (Normal tt, st1) ->
  (forall k, (k < 3)%nat ->
     exchange_fails env (List.length (page_posts st1) + k)
       (request_of st1 (current_page ls))) ->
  exists b st',
    loop_body env ls st =
      (Normal (mkLocals (current_page ls + 1) (VNum 1%Q)
                 (error_counter ls + 1), b), st') /\
    b = (MAX_ERROR <=? error_counter ls + 1) /\
    all_items st' = all_items st /\
    page_calls st' = S (page_calls st) /\
    page_posts st' =
      page_posts st ++ repeat (request_of st1 (current_page ls)) 3.
Proof.
  intros Hv Hfail.
  pose proof (validate_token_frame env st) as F. cbn zeta in F.
  rewrite Hv in F. cbn [snd] in F. destruct F as (Fi & Fp & Fc & _).
  rewrite loop_body_unfold, get_page_unfold, validate_token_log_page_call, Hv.
  cbn [fst snd].
  destruct (attempts_all_fail env (token (log_page_call st1))
              (req_id (log_page_call st1)) (current_page ls) 3 3 1
              (log_page_call st1))
    as (st2 & Hrun & Hc & _ & Hpc & Hposts);
    [lia | reflexivity | exact Hfail |].
  rewrite Hrun. cbn [truthy].
  unfold client_of in Hc. cbn in Hc, Hpc, Hposts.
  assert (Hitems : all_items st2 = all_items st) by congruence.
  destruct (MAX_ERROR <=? error_counter ls + 1) eqn:E;
    eexists _, _; (split; [reflexivity|]); cbn;
    repeat split; auto; try congruence.
  - rewrite Hposts, Fp. reflexivity.
  - rewrite Hposts, Fp. reflexivity.
Qed.

Lemma failed_page_counts_one_error_witness :
  validate_token env_page2_down authenticated =
    (Normal tt, log_clock_read authenticated) /\
  (forall k, (k < 3)%nat ->
     exchange_fails env_page2_down
       (List.length (page_posts (log_clock_read authenticated)) + k)
       (request_of (log_clock_read authenticated) 2)) /\
  exists b st',
    loop_body env_page2_down (mkLocals 2 (VNum 3%Q) 0) authenticated =
      (Normal (mkLocals 3 (VNum 1%Q) 1, b), st') /\
    b = false /\
    all_items st' = [] /\
    page_calls st' = 1%nat /\
    page_posts st' = repeat (request_of (log_clock_read authenticated) 2) 3.
Proof.
  assert (Hv : validate_token env_page2_down authenticated =
               (Normal tt, log_clock_read authenticated)) by reflexivity.
  assert (Hf : forall k, (k < 3)%nat ->
     exchange_fails env_page2_down
       (List.length (page_posts (log_clock_read authenticated)) + k)
       (request_of (log_clock_read authenticated) 2)).
  { intros k _. right. reflexivity. }
  split; [exact Hv|]. split; [exact Hf|].
  exact (failed_page_counts_one_error env_page2_down
           (mkLocals 2 (VNum 3%Q) 0) authenticated _ Hv Hf).
Defined.

(** C10.  If no page body ever reports more than [B] pages ([B >= 1], so
    the failure sentinel 1 is within the bound too), [run] terminates, by
    returning or by raising, after at most [B] calls of [get_page]. *)
Theorem run_terminates_within_bound (env : Env) (B : Z) (st : state) :
  1 <= B -> total_pages_bounded env B ->
  exists fuel r st',
    run env fuel st = Some (r, st') /\
    Z.of_nat (page_calls st') <= Z.of_nat (page_calls st) + B.
Proof.
  intros HB Hbound.
  pose proof (get_token_frame env st) as F. cbn zeta in F.
  destruct F as (_ & _ & Fc & _).
  destruct (get_token env st) as [[[]|e] st1] eqn:Et; cbn [snd] in Fc.
  - destruct (while_loop_terminates env B HB Hbound (Z.to_nat B)
                (mkLocals 1 (VNum 1%Q) 0) st1)
      as (r & st2 & Hrun & Hcalls).
    + cbn. intros q Hq. inversion Hq; subst.
      rewrite Zle_Qle in HB. exact HB.
    + cbn. lia.
    + cbn [current_page] in Hcalls.
      exists (S (Z.to_nat B)). unfold run, run_pagination.
      rewrite Et, Hrun.
      destruct r as [ls|e].
      * unfold report. unfold_monad.
        destruct (all_items st2) as [|i rest] eqn:Ei.
        -- eexists _, _. split; [reflexivity|]. cbn. lia.
        -- destruct (sum_temperatures 0 (i :: rest));
             eexists _, _; (split; [reflexivity|]); cbn; lia.
      * eexists _, _. split; [reflexivity|]. lia.
  - exists 0%nat. unfold run, run_pagination. rewrite Et.
    eexists _, _. split; [reflexivity|]. lia.
Qed.

Lemma run_terminates_within_bound_witness :
  1 <= 2 /\ total_pages_bounded env_two_pages 2 /\
  exists fuel r st',
    run env_two_pages fuel init = Some (r, st') /\
    Z.of_nat (page_calls st') <= Z.of_nat (page_calls init) + 2.
Proof.
  assert (Hb : total_pages_bounded env_two_pages 2).
  { intros n rq data total q Hr Hd Hq. cbn in Hr. inversion Hr; subst.
    cbn in Hd. inversion Hd; subst. cbn in Hq. inversion Hq; subst.
    apply Qle_refl. }
  split; [lia|]. split; [exact Hb|].
  exact (run_terminates_within_bound env_two_pages 2 init ltac:(lia) Hb).
Defined.

(** C2, as stated, fails: with the authentication endpoint down the loop
    ends after the first page, with the error counter at 1, not at the
    ceiling. *)
Lemma auth_down_error_counter_is_one :
  (forall n, auth_reply env_auth_down n = TransportError) /\
  exists ls st,
    run_pagination env_auth_down 6 init = Some (Normal ls, st) /\
    page_calls st = 1%nat /\
    error_counter ls = 1 /\
    error_counter ls <> MAX_ERROR.
Proof.
  split; [intros n; reflexivity|].
  eexists _, _. split; [vm_compute; reflexivity|].
  repeat split. cbn. discriminate.
Qed.

(** C2, amended.  When no authentication exchange ever succeeds, the first
    [get_token] and the token check of the first [get_page] both fail, the
    three attempts for page 1 fail because there is no data URL, and the
    loop, whose bound is still 1, ends there: one call of [get_page], the
    error counter at 1, and a report of no data with the city [None]. *)
Theorem auth_down_run_stops_after_one_page (env : Env) (fuel : nat) :
  (forall n, auth_reply env n = TransportError) ->
  (2 <= fuel)%nat ->
  exists st1 st2,
    run_pagination env fuel init =
      Some (Normal (mkLocals 2 (VNum 1%Q) 1), st1) /\
    token st1 = VNone /\
    page_calls st1 = 1%nat /\
    page_posts st1 = repeat (mkRequest VNone VNone VNone 1) 3 /\
    run env fuel init = Some (Normal tt, st2) /\
    city st2 = VNone /\
    stdout st2 =
      [TokenNetworkError; TokenNetworkError;
       AttemptFailed 1 1; AttemptFailed 2 1; AttemptFailed 3 1;
       PageFailedAfter 1 3; FailedToGetPage 1; City VNone; NoDataReceived].
Proof.
  intros H Hfuel.
  destruct fuel as [|[|fuel]]; try lia.
  destruct (loop_body_auth_down env H) as (st1 & E & Ht & Hcity & Hi & Hpc & Hpp & Hout).
  assert (Hp : run_pagination env (S (S fuel)) init =
               Some (Normal (mkLocals 2 (VNum 1%Q) 1), st1)).
  { unfold run_pagination.
    rewrite get_token_transport_error by apply H.
    cbn [while_loop current_page total_pages].
    change (page_le 1 (VNum 1%Q)) with (@Normal bool true). cbv iota.
    rewrite E. cbn [current_page total_pages].
    change (page_le 2 (VNum 1%Q)) with (@Normal bool false). reflexivity. }
  exists st1, (log_print NoDataReceived (log_print (City VNone) st1)).
  split; [exact Hp|].
  split; [exact Ht|]. split; [exact Hpc|]. split; [exact Hpp|].
  unfold run. rewrite Hp. unfold report. unfold_monad.
  rewrite Hi. cbn. rewrite Hcity, Hout. repeat split.
Qed.

Lemma auth_down_run_stops_after_one_page_witness :
  (forall n, auth_reply env_auth_down n = TransportError) /\
  (2 <= 5)%nat /\
  exists st1 st2,
    run_pagination env_auth_down 5 init =
      Some (Normal (mkLocals 2 (VNum 1%Q) 1), st1) /\
    token st1 = VNone /\
    page_calls st1 = 1%nat /\
    page_posts st1 = repeat (mkRequest VNone VNone VNone 1) 3 /\
    run env_auth_down 5 init = Some (Normal tt, st2) /\
    city st2 = VNone /\
    stdout st2 =
      [TokenNetworkError; TokenNetworkError;
       AttemptFailed 1 1; AttemptFailed 2 1; AttemptFailed 3 1;
       PageFailedAfter 1 3; FailedToGetPage 1; City VNone; NoDataReceived].
Proof.
  split; [intros n; reflexivity|]. split; [lia|].
  exact (auth_down_run_stops_after_one_page env_auth_down 5
           (fun n => eq_refl) ltac:(lia)).
Defined.

(** C1.  What the code does when a page fails after an earlier page
    reported three pages: page 1 answers with [total_pages = 3], the three
    attempts for page 2 fail, and the assignment
    [items, total_pages = self.get_page(current_page)] overwrites the bound
    with the sentinel 1.  The loop ends with [current_page = 3] and
    [total_pages = 1]; page 3, which would have answered, is never
    requested. *)
Theorem failed_page_overwrites_total_pages :
  exists st,
    run_pagination env_page2_down 4 init =
      Some (Normal (mkLocals 3 (VNum 1%Q) 1), st) /\
    map rq_page (page_posts st) = [1; 2; 2; 2] /\
    all_items st = [temperature 10].
Proof.
  eexists. split; [vm_compute; reflexivity|]. split; reflexivity.
Qed.

(** C5, as stated, fails: the first body carries no [total_pages], the
    default 1 ends the loop after page 1, and the report shows 10.000. *)
Lemma round_trip_reports_first_page_only :
  exists st,
    run (env_round_trip (VStr "Haifa")) 3 init = Some (Normal tt, st) /\
    stdout st = [City (VStr "Haifa"); AverageTemperature "10.000"] /\
    ~ In (AverageTemperature "15.000") (stdout st).
Proof.
  eexists. split; [vm_compute; reflexivity|]. split; [reflexivity|].
  cbn. intros [H|[H|[]]]; discriminate.
Qed.

(** C5, amended.  With the two bodies of the claim the run requests page 1
    only and reports 10.000; when the first body carries [total_pages = 2]
    as well, both pages are requested and the report shows 15.000.  In
    both runs the city printed is the [dataset] of the authentication
    body. *)
Theorem round_trip_average (dataset : value) :
  (exists st,
     run (env_round_trip dataset) 3 init = Some (Normal tt, st) /\
     map rq_page (page_posts st) = [1] /\
     stdout st = [City dataset; AverageTemperature "10.000"]) /\
  (exists st,
     run (env_round_trip_total dataset) 3 init = Some (Normal tt, st) /\
     map rq_page (page_posts st) = [1; 2] /\
     stdout st = [City dataset; AverageTemperature "15.000"]).
Proof.
  split; eexists; (split; [vm_compute; reflexivity|]); split; reflexivity.
Qed.


(** C6, as stated, fails: with no token and the authentication endpoint
    down, each of the two calls performs an exchange, although no time
    passes. *)
Lemma two_validations_two_refreshes :
  frozen_clock env_auth_down init 0%Q /\
  auth_posts (snd (two_validations env_auth_down init)) = 2%nat /\
  ~ (auth_posts (snd (two_validations env_auth_down init)) <=
     auth_posts init + 1)%nat.
Proof.
  split; [intros n _; reflexivity|].
  split; [reflexivity|].
  intros H. vm_compute in H. lia.
Qed.

(** C6, amended.  With the clock standing still, two calls of
    [validate_token] in a row perform at most one authentication exchange
    provided the first call leaves a token that is not [None].  (When the
    first call's exchange fails at the network level the token is [None]
    again and the second call performs a second exchange; there are never
    more than two.) *)
Theorem two_validations_one_refresh (env : Env) (st : state) (t : Q) :
  frozen_clock env st t ->
  token (snd (validate_token env st)) <> VNone ->
  (auth_posts (snd (two_validations env st)) <= auth_posts st + 1)%nat.
Proof.
  intros Hclock Htok.
  rewrite two_validations_unfold.
  pose proof (validate_token_frame env st) as F. cbn zeta in F.
  destruct (validate_token env st) as [[[]|e] st1] eqn:Ev; cbn [snd] in *.
  - rewrite validate_token_unfold.
    rewrite (validated_token_is_fresh env st st1 t Hclock Ev Htok).
    cbn. lia.
  - lia.
Qed.

Lemma two_validations_one_refresh_witness :
  frozen_clock env_two_pages init 0%Q /\
  token (snd (validate_token env_two_pages init)) <> VNone /\
  (auth_posts (snd (two_validations env_two_pages init)) <=
   auth_posts init + 1)%nat.
Proof.
  assert (Hc : frozen_clock env_two_pages init 0%Q).
  { intros n _. reflexivity. }
  assert (Ht : token (snd (validate_token env_two_pages init)) <> VNone).
  { vm_compute. discriminate. }
  split; [exact Hc|]. split; [exact Ht|].
  exact (two_validations_one_refresh env_two_pages init 0%Q Hc Ht).
Defined.



(** C3, as stated, fails: six pages all answer at the first attempt, but
    they carry no items, each counts as an error, and the loop breaks
    after the fifth fetch, before page 6. *)
Lemma six_empty_pages_five_fetches :
  auth_always_succeeds env_six_empty /\
  pages_always_succeed env_six_empty (fun _ => []) 6 /\
  exists ls st,
    run_pagination env_six_empty 7 init = Some (Normal ls, st) /\
    total_pages ls = VNum (inject_Z 6) /\
    error_counter ls = 5 /\
    map rq_page (page_posts st) = [1; 2; 3; 4; 5] /\
    page_calls st <> 6%nat.
Proof.
  split; [|split].
  - intros n. eexists _, _. repeat split.
  - intros n rq. eexists. repeat split.
  - eexists _, _. split; [vm_compute; reflexivity|].
    repeat split. cbn. discriminate.
Qed.

(** C3, amended.  In a run where every exchange succeeds at the first
    attempt, every page body reports the same total [T >= 1], and no five
    pages in a row come back empty, the loop ends normally after exactly
    [T] calls of [get_page] and [T] requests, for the pages [1..T] in
    order, and the items collected are those of the pages [1..T] in page
    order, appended to what was collected before. *)
Theorem first_try_run_collects_all_pages (env : Env) (pg : Z -> list value)
    (T : Z) (st : state) :
  1 <= T ->
  auth_always_succeeds env ->
  pages_always_succeed env pg T ->
  no_five_empty pg T ->
  exists fuel ls st',
    run_pagination env fuel st = Some (Normal ls, st') /\
    all_items st' = all_items st ++ items_upto pg (Z.to_nat T) /\
    page_calls st' = (page_calls st + Z.to_nat T)%nat /\
    map rq_page (page_posts st') =
      map rq_page (page_posts st) ++ map Z.of_nat (seq 1 (Z.to_nat T)).
Proof.
  intros HT Hauth Hpages Hfive.
  pose proof (get_token_frame env st) as (Fi & Fp & Fc & _).
  destruct (get_token_succeeds env Hauth st) as (st0 & Hg & Hu).
  rewrite Hg in Fi, Fp, Fc. cbn [snd] in Fi, Fp, Fc.
  destruct (while_loop_succeeds env pg T HT Hauth Hpages Hfive st st0)
    as (fuel & ls & st' & Hrun & HI & Hend).
  { exists 0%nat. cbn -[items_upto]. unfold items_upto. cbn.
    rewrite !app_nil_r, Nat.add_0_r.
    repeat split; auto; try lia. congruence. }
  exists fuel, ls, st'. unfold run_pagination. rewrite Hg.
  split; [exact Hrun|].
  destruct HI as (n & Hcur & _ & _ & _ & _ & _ & _ & Hitems & Hcalls & Hposts).
  assert (n = Z.to_nat T) by lia. subst n. auto.
Qed.

Lemma first_try_run_collects_all_pages_witness :
  1 <= 2 /\
  auth_always_succeeds env_two_pages /\
  pages_always_succeed env_two_pages
    (fun p => [temperature (10 * p)]) 2 /\
  no_five_empty (fun p => [temperature (10 * p)]) 2 /\
  exists fuel ls st',
    run_pagination env_two_pages fuel init = Some (Normal ls, st') /\
    all_items st' = [temperature 10; temperature 20] /\
    page_calls st' = 2%nat /\
    map rq_page (page_posts st') = [1; 2].
Proof.
  assert (Ha : auth_always_succeeds env_two_pages).
  { intros n. eexists _, _. repeat split. }
  assert (Hp : pages_always_succeed env_two_pages
                 (fun p => [temperature (10 * p)]) 2).
  { intros n rq. eexists. repeat split. }
  assert (Hf : no_five_empty (fun p => [temperature (10 * p)]) 2).
  { intros p _ _. exists 0. split; [lia | discriminate]. }
  split; [lia|]. split; [exact Ha|]. split; [exact Hp|]. split; [exact Hf|].
  exact (first_try_run_collects_all_pages env_two_pages
           (fun p => [temperature (10 * p)]) 2 init ltac:(lia) Ha Hp Hf).
Defined.

(** * Further properties *)

(** X1.  A successful authentication exchange replaces the whole
    credential: token, city, request identifier and data URL come from the
    body, the issue time is the instant read from the clock; exactly one
    exchange is made, and the collected items, the page log and the output
    are left alone. *)
Theorem get_token_replaces_credential (env : Env) (st : state)
    (b tok c rid u : value) :
  auth_reply env (auth_posts st) = Body b ->
  subscript b "token" = Normal tok ->
  subscript b "dataset" = Normal c ->
  subscript b "request_id" = Normal rid ->
  subscript b "data_url" = Normal u ->
  exists st',
    get_token env st = (Normal tt, st') /\
    client_of st' =
      (tok, clock env (clock_reads st), c, rid, u, all_items st) /\
    auth_posts st' = S (auth_posts st) /\
    clock_reads st' = S (clock_reads st) /\
    page_posts st' = page_posts st /\
    stdout st' = stdout st.
Proof.
  intros Hr Ht Hc Hrid Hu. unfold get_token. unfold_monad.
  rewrite Hr, Ht. cbn. rewrite Hc. cbn. rewrite Hrid. cbn. rewrite Hu. cbn.
  eexists. repeat split.
Qed.

Lemma get_token_replaces_credential_witness :
  exists st',
    get_token env_renewal authenticated = (Normal tt, st') /\
    client_of st' =
      (VStr "n3w", 55%Q, VStr "Eilat", VStr "req-2",
       VStr "https://example.test/data2", []) /\
    auth_posts st' = 2%nat /\
    clock_reads st' = 2%nat /\
    page_posts st' = [] /\
    stdout st' = [].
Proof.
  exact (get_token_replaces_credential env_renewal authenticated _ _ _ _ _
           eq_refl eq_refl eq_refl eq_refl eq_refl).
Defined.

(** X2.  An authentication body that lacks one of the four keys makes
    [get_token] raise, after one exchange, and leaves the credential half
    updated: a token that is present is already stored, with its issue
    time, while the data URL (assigned last) keeps its old value.  When it
    is the token that cannot be read, the whole client object is
    unchanged. *)
Theorem get_token_malformed_body (env : Env) (st : state) (b : value) :
  auth_reply env (auth_posts st) = Body b ->
  auth_body_ok b = false ->
  exists e st',
    get_token env st = (Raise e, st') /\
    auth_posts st' = S (auth_posts st) /\
    url st' = url st /\
    all_items st' = all_items st /\
    (forall tok, subscript b "token" = Normal tok ->
       token st' = tok /\ token_time st' = clock env (clock_reads st)) /\
    (forall e', subscript b "token" = Raise e' ->
       e = e' /\ client_of st' = client_of st).
Proof.
  intros Hr Hok. unfold get_token. unfold_monad. rewrite Hr.
  unfold auth_body_ok in Hok.
  destruct (subscript b "token") as [tok|e0]; cbn.
  - destruct (subscript b "dataset") as [c|e1]; cbn.
    + destruct (subscript b "request_id") as [rid|e2]; cbn.
      * destruct (subscript b "data_url") as [u|e3]; [discriminate|]. cbn.
        eexists _, _. repeat split; intros; try discriminate;
          repeat match goal with
                 | H : Normal _ = Normal _ |- _ => inversion H; clear H; subst
                 | H : Raise _ = Raise _ |- _ => inversion H; clear H; subst
                 end; reflexivity.
      * eexists _, _. repeat split; intros; try discriminate;
          repeat match goal with
                 | H : Normal _ = Normal _ |- _ => inversion H; clear H; subst
                 | H : Raise _ = Raise _ |- _ => inversion H; clear H; subst
                 end; reflexivity.
    + eexists _, _. repeat split; intros; try discriminate;
          repeat match goal with
                 | H : Normal _ = Normal _ |- _ => inversion H; clear H; subst
                 | H : Raise _ = Raise _ |- _ => inversion H; clear H; subst
                 end; reflexivity.
  - eexists _, _. repeat split; intros; try discriminate;
          repeat match goal with
                 | H : Normal _ = Normal _ |- _ => inversion H; clear H; subst
                 | H : Raise _ = Raise _ |- _ => inversion H; clear H; subst
                 end; reflexivity.
Qed.

Lemma get_token_malformed_body_witness :
  auth_reply env_auth_token_only (auth_posts authenticated) =
    Body (VDict [("token"%string, VStr "n3w")]) /\
  auth_body_ok (VDict [("token"%string, VStr "n3w")]) = false /\
  exists e st',
    get_token env_auth_token_only authenticated = (Raise e, st') /\
    auth_posts st' = 2%nat /\
    url st' = VStr "https://example.test/data" /\
    all_items st' = [] /\
    (forall tok, Normal (VStr "n3w") = Normal tok ->
       token st' = tok /\ token_time st' = 7%Q) /\
    (forall e', Normal (VStr "n3w") = @Raise value e' ->
       e = e' /\ client_of st' = client_of authenticated).
Proof.
  split; [reflexivity|]. split; [reflexivity|].
  exact (get_token_malformed_body env_auth_token_only authenticated _
           eq_refl eq_refl).
Defined.



(** X4.  With no token, or a token whose age has reached the timeout (55
    itself included), [validate_token] is exactly one call of [get_token]:
    one authentication exchange.  Without a token the clock is not even
    read first. *)
Theorem validate_token_refreshes_stale_token (env : Env) (st : state) :
  token st = VNone \/
  (TOKEN_TIMEOUT <= clock env (clock_reads st) - token_time st)%Q ->
  auth_posts (snd (validate_token env st)) = S (auth_posts st) /\
  validate_token env st =
    get_token env (if is_none (token st) then st else log_clock_read st).
Proof.
  intros H. rewrite validate_token_unfold.
  assert (E : needs_refresh env st = true).
  { unfold needs_refresh. destruct H as [->|H]; [reflexivity|].
    apply Qle_bool_iff in H. rewrite H. apply orb_true_r. }
  rewrite E.
  destruct (is_none (token st)); split; try reflexivity.
  - apply get_token_frame.
  - pose proof (get_token_frame env (log_clock_read st)) as F.
    cbn zeta in F. destruct F as (_ & _ & _ & _ & F & _). exact F.
Qed.

Lemma validate_token_refreshes_stale_token_witness :
  (token authenticated = VNone \/
   (TOKEN_TIMEOUT <=
    clock env_renewal (clock_reads authenticated) - token_time authenticated)%Q)
  /\
  auth_posts (snd (validate_token env_renewal authenticated)) = 2%nat /\
  validate_token env_renewal authenticated =
    get_token env_renewal (log_clock_read authenticated).
Proof.
  assert (H : token authenticated = VNone \/
    (TOKEN_TIMEOUT <=
     clock env_renewal (clock_reads authenticated) -
     token_time authenticated)%Q).
  { right. cbn. discriminate. }
  split; [exact H|].
  exact (validate_token_refreshes_stale_token env_renewal authenticated H).
Defined.

(** X5.  Once the token check has returned, if the first [j] exchanges
    for a page fail ([j] below [max_retries]) and the next one answers,
    [get_page] returns what that body gives and stops retrying: it has
    posted the same request [j + 1] times and slept [j] times, and has
    collected nothing itself. *)
Theorem get_page_returns_first_answer (env : Env) (page : Z)
    (max_retries j : nat) (st st1 : state) (data : value) :
  validate_token env st = (Normal tt, st1) ->
  is_none (url st1) = false ->
  (j < max_retries)%nat ->
  (forall k, (k < j)%nat ->
     page_reply env (List.length (page_posts st1) + k)
       (request_of st1 page) = TransportError) ->
  page_reply env (List.length (page_posts st1) + j) (request_of st1 page) =
    Body data ->
  exists st',
    get_page env page max_retries st = (page_result data, st') /\
    page_posts st' = page_posts st ++ repeat (request_of st1 page) (S j) /\
    sleeps st' = (sleeps st + j)%nat /\
    all_items st' = all_items st /\
    page_calls st' = S (page_calls st).
Proof.
  intros Hv Hu Hj Hfail Hans.
  destruct (get_page_after_check env page max_retries st st1 Hv)
    as (-> & Hp & Hs & Hi & Hc).
  destruct (attempts_answer_after env (token st1) (req_id st1) page
              max_retries data j max_retries 1 (log_page_call st1))
    as (st' & Hrun & Hcl & _ & Hpc & Hsl & Hposts); auto; try lia.
  - intros k Hk. right. apply Hfail. exact Hk.
  - exists st'. split; [exact Hrun|].
    unfold client_of in Hcl. cbn in Hcl, Hpc, Hsl, Hposts.
    repeat split; try congruence.
    rewrite Hposts, Hp. reflexivity.
Qed.

Lemma get_page_returns_first_answer_witness :
  validate_token env_flaky authenticated =
    (Normal tt, log_clock_read authenticated) /\
  (forall k, (k < 2)%nat ->
     page_reply env_flaky
       (List.length (page_posts (log_clock_read authenticated)) + k)
       (request_of (log_clock_read authenticated) 1) = TransportError) /\
  exists st',
    get_page env_flaky 1 3 authenticated =
      (Normal (Some (VList [temperature 10; temperature 30],
                     VNum (inject_Z 4))), st') /\
    page_posts st' = repeat (request_of (log_clock_read authenticated) 1) 3 /\
    sleeps st' = 2%nat /\
    all_items st' = [] /\
    page_calls st' = 1%nat.
Proof.
  assert (Hf : forall k, (k < 2)%nat ->
     page_reply env_flaky
       (List.length (page_posts (log_clock_read authenticated)) + k)
       (request_of (log_clock_read authenticated) 1) = TransportError).
  { intros k Hk. destruct k as [|[|k]]; [reflexivity | reflexivity | lia]. }
  split; [reflexivity|]. split; [exact Hf|].
  exact (get_page_returns_first_answer env_flaky 1 3 2 authenticated
           (log_clock_read authenticated) _ eq_refl eq_refl ltac:(lia) Hf
           eq_refl).
Defined.

(** X6.  Once the token check has returned, if all [max_retries]
    exchanges for a page fail, [get_page] gives up with an empty list and
    the total 1, after [max_retries] posts of the same request and
    [max_retries - 1] sleeps: it does not sleep after the last attempt,
    and the client object is as the token check left it. *)
Theorem get_page_gives_up (env : Env) (page : Z) (max_retries : nat)
    (st st1 : state) :
  validate_token env st = (Normal tt, st1) ->
  (0 < max_retries)%nat ->
  (forall k, (k < max_retries)%nat ->
     exchange_fails env (List.length (page_posts st1) + k)
       (request_of st1 page)) ->
  exists st',
    get_page env page max_retries st =
      (Normal (Some (VList [], VNum 1%Q)), st') /\
    page_posts st' =
      page_posts st ++ repeat (request_of st1 page) max_retries /\
    (sleeps st' + 1 = sleeps st + max_retries)%nat /\
    client_of st' = client_of st1.
Proof.
  intros Hv Hmr Hfail.
  destruct (get_page_after_check env page max_retries st st1 Hv)
    as (Hg & Hp & Hs & Hi & Hc).
  pose proof (attempts_all_fail_sleeps env (token st1) (req_id st1) page
                max_retries max_retries 1 (log_page_call st1) Hmr
                ltac:(lia) Hfail) as Hsl.
  destruct (attempts_all_fail env (token st1) (req_id st1) page
              max_retries max_retries 1 (log_page_call st1) Hmr
              ltac:(lia) Hfail)
    as (st' & Hrun & Hcl & _ & _ & Hposts).
  rewrite <- Hg in Hrun, Hsl. rewrite Hrun in Hsl. cbn in Hsl, Hposts, Hcl.
  exists st'. split; [exact Hrun|]. repeat split.
  - rewrite Hposts, Hp. reflexivity.
  - lia.
  - exact Hcl.
Qed.

Lemma get_page_gives_up_witness :
  validate_token env_pages_down authenticated =
    (Normal tt, log_clock_read authenticated) /\
  (forall k, (k < 3)%nat ->
     exchange_fails env_pages_down
       (List.length (page_posts (log_clock_read authenticated)) + k)
       (request_of (log_clock_read authenticated) 7)) /\
  exists st',
    get_page env_pages_down 7 3 authenticated =
      (Normal (Some (VList [], VNum 1%Q)), st') /\
    page_posts st' = repeat (request_of (log_clock_read authenticated) 7) 3 /\
    (sleeps st' + 1 = 0 + 3)%nat /\
    client_of st' = client_of (log_clock_read authenticated).
Proof.
  assert (Hf : forall k, (k < 3)%nat ->
     exchange_fails env_pages_down
       (List.length (page_posts (log_clock_read authenticated)) + k)
       (request_of (log_clock_read authenticated) 7)).
  { intros k _. right. reflexivity. }
  split; [reflexivity|]. split; [exact Hf|].
  exact (get_page_gives_up env_pages_down 7 3 authenticated
           (log_clock_read authenticated) eq_refl ltac:(lia) Hf).
Defined.

(** X7.  A page body that decodes to something other than a dict is not
    retried: [data.get] raises [AttributeError], which leaves [get_page]
    after that single request, without a sleep. *)
Theorem get_page_non_dict_body_raises (env : Env) (page : Z)
    (max_retries : nat) (st st1 : state) (data : value) :
  validate_token env st = (Normal tt, st1) ->
  is_none (url st1) = false ->
  (0 < max_retries)%nat ->
  page_reply env (List.length (page_posts st1)) (request_of st1 page) =
    Body data ->
  (forall kvs, data <> VDict kvs) ->
  exists st',
    get_page env page max_retries st = (Raise AttributeError, st') /\
    page_posts st' = page_posts st ++ [request_of st1 page] /\
    sleeps st' = sleeps st /\
    all_items st' = all_items st.
Proof.
  intros Hv Hu Hmr Hans Hnd.
  destruct (get_page_after_check env page max_retries st st1 Hv)
    as (-> & Hp & Hs & Hi & Hc).
  destruct (attempts_answer_after env (token st1) (req_id st1) page
              max_retries data 0 max_retries 1 (log_page_call st1))
    as (st' & Hrun & Hcl & _ & Hpc & Hsl & Hposts); auto; try lia.
  - cbn. rewrite Nat.add_0_r. exact Hans.
  - assert (E : page_result data = Raise AttributeError).
    { destruct data; try reflexivity. exfalso. eapply Hnd. reflexivity. }
    rewrite E in Hrun. exists st'. split; [exact Hrun|].
    unfold client_of in Hcl. cbn in Hcl, Hsl, Hposts.
    repeat split; try congruence; try lia.
    rewrite Hposts, Hp. reflexivity.
Qed.

Lemma get_page_non_dict_body_raises_witness :
  validate_token env_list_body authenticated =
    (Normal tt, log_clock_read authenticated) /\
  (forall kvs, VList [temperature 10] <> VDict kvs) /\
  exists st',
    get_page env_list_body 1 3 authenticated = (Raise AttributeError, st') /\
    page_posts st' = [request_of (log_clock_read authenticated) 1] /\
    sleeps st' = 0%nat /\
    all_items st' = [].
Proof.
  assert (Hn : forall kvs, VList [temperature 10] <> VDict kvs)
    by discriminate.
  split; [reflexivity|]. split; [exact Hn|].
  exact (get_page_non_dict_body_raises env_list_body 1 3 authenticated
           (log_clock_read authenticated) _ eq_refl eq_refl ltac:(lia)
           eq_refl Hn).
Defined.

(** X8.  A fetch that finds the token missing or stale and whose
    authentication exchange succeeds makes exactly that one exchange and
    then posts its requests (at least one, when retries are allowed) with
    the new token, the new request identifier and the new data URL. *)
Theorem stale_token_is_renewed_before_fetch (env : Env) (page : Z)
    (max_retries : nat) (st : state) (b : value) :
  needs_refresh env st = true ->
  auth_reply env (auth_posts st) = Body b ->
  auth_body_ok b = true ->
  (0 < max_retries)%nat ->
  exists tok rid u k,
    subscript b "token" = Normal tok /\
    subscript b "request_id" = Normal rid /\
    subscript b "data_url" = Normal u /\
    (0 < k <= max_retries)%nat /\
    auth_posts (snd (get_page env page max_retries st)) = S (auth_posts st) /\
    page_posts (snd (get_page env page max_retries st)) =
      page_posts st ++ repeat (mkRequest u tok rid page) k.
Proof.
  intros Hn Hr Hok Hmr.
  assert (E : exists st1,
    validate_token env (log_page_call st) = (Normal tt, st1) /\
    subscript b "token" = Normal (token st1) /\
    subscript b "request_id" = Normal (req_id st1) /\
    subscript b "data_url" = Normal (url st1)).
  { rewrite validate_token_unfold.
    change (needs_refresh env (log_page_call st)) with (needs_refresh env st).
    rewrite Hn.
    destruct (is_none (token (log_page_call st))).
    - destruct (get_token_body_ok env (log_page_call st) b Hr Hok)
        as (st1 & Hg & Ht & _ & Hrid & Hu & _). eauto.
    - destruct (get_token_body_ok env (log_clock_read (log_page_call st)) b
                  Hr Hok)
        as (st1 & Hg & Ht & _ & Hrid & Hu & _). eauto. }
  destruct E as (st1 & Hv & Ht & Hrid & Hu).
  pose proof (validate_token_frame env (log_page_call st)) as F.
  cbn zeta in F. rewrite Hv in F. cbn in F.
  destruct F as (_ & Fp & _ & _ & Fa & _).
  assert (Fa' : auth_posts st1 = S (auth_posts st)).
  { pose proof (validate_token_refreshes_needed env (log_page_call st) Hn)
      as G. rewrite Hv in G. exact G. }
  rewrite get_page_unfold, Hv. cbv beta iota.
  pose proof (attempts_frame env (token st1) (req_id st1) page max_retries
                max_retries 1 st1) as G.
  cbn zeta in G. destruct G as (_ & Ga & _ & _ & k & Hle & Hpos & Hposts).
  exists (token st1), (req_id st1), (url st1), k.
  repeat split; auto; try lia; congruence.
Qed.

Lemma stale_token_is_renewed_before_fetch_witness :
  needs_refresh env_renewal authenticated = true /\
  exists tok rid u k,
    Normal (VStr "n3w") = Normal tok /\
    Normal (VStr "req-2") = Normal rid /\
    Normal (VStr "https://example.test/data2") = Normal u /\
    (0 < k <= 3)%nat /\
    auth_posts (snd (get_page env_renewal 4 3 authenticated)) = 2%nat /\
    page_posts (snd (get_page env_renewal 4 3 authenticated)) =
      [] ++ repeat (mkRequest u tok rid 4) k.
Proof.
  split; [reflexivity|].
  exact (stale_token_is_renewed_before_fetch env_renewal 4 3 authenticated _
           eq_refl eq_refl eq_refl ltac:(lia)).
Defined.

(** X9.  When the token check raises (an authentication body without one
    of its keys), [get_page] raises the same exception without posting any
    page request and without sleeping. *)
Theorem get_page_stops_on_token_error (env : Env) (page : Z)
    (max_retries : nat) (st : state) (e : exn) :
  fst (validate_token env st) = Raise e ->
  fst (get_page env page max_retries st) = Raise e /\
  page_posts (snd (get_page env page max_retries st)) = page_posts st /\
  sleeps (snd (get_page env page max_retries st)) = sleeps st /\
  all_items (snd (get_page env page max_retries st)) = all_items st.
Proof.
  intros Hv.
  pose proof (validate_token_frame env st) as F. cbn zeta in F.
  destruct F as (Fi & Fp & _ & Fs & _).
  rewrite get_page_unfold, validate_token_log_page_call.
  destruct (validate_token env st) as [r st1]. cbn [fst snd] in *. subst r.
  cbn. auto.
Qed.

Lemma get_page_stops_on_token_error_witness :
  fst (validate_token env_auth_malformed init) = Raise (KeyError "token") /\
  fst (get_page env_auth_malformed 1 3 init) = Raise (KeyError "token") /\
  page_posts (snd (get_page env_auth_malformed 1 3 init)) = [] /\
  sleeps (snd (get_page env_auth_malformed 1 3 init)) = 0%nat /\
  all_items (snd (get_page env_auth_malformed 1 3 init)) = [].
Proof.
  split; [reflexivity|].
  exact (get_page_stops_on_token_error env_auth_malformed 1 3 init _ eq_refl).
Defined.

(** X10.  A page answered at the first attempt with a non-empty list of
    items: the pass through the loop body appends the items, in order, to
    what was collected, resets the error counter to 0 whatever it was,
    takes the reported total as the new bound, moves to the next page and
    does not break. *)
Theorem answered_page_resets_error_counter (env : Env) (ls : locals)
    (st st1 : state) (data : value) (item : value) (rest : list value)
    (total : value) :
  validate_token env st = (Normal tt, st1) ->
  is_none (url st1) = false ->
  page_reply env (List.length (page_posts st1))
    (request_of st1 (current_page ls)) = Body data ->
  page_result data = Normal (Some (VList (item :: rest), total)) ->
  exists st',
    loop_body env ls st =
      (Normal (mkLocals (current_page ls + 1) total 0, false), st') /\
    all_items st' = all_items st ++ item :: rest /\
    page_calls st' = S (page_calls st) /\
    page_posts st' = page_posts st ++ [request_of st1 (current_page ls)] /\
    stdout st' = stdout st1.
Proof.
  intros Hv Hu Hans Hres.
  destruct (get_page_after_check env (current_page ls) 3 st st1 Hv)
    as (Hg & Hp & Hs & Hi & Hc).
  destruct (attempts_answer_after env (token st1) (req_id st1)
              (current_page ls) 3 data 0 3 1 (log_page_call st1))
    as (st2 & Hrun & Hcl & _ & Hpc & _ & Hposts); auto; try lia.
  { cbn. rewrite Nat.add_0_r. exact Hans. }
  rewrite loop_body_unfold, Hg, Hrun, Hres. cbn [truthy iterate].
  assert (Hout : stdout st2 = stdout st1).
  { revert Hrun. rewrite attempts_S. cbn zeta. cbn [url log_page_call].
    rewrite Hu. cbn [page_posts log_page_call]. unfold request_of in Hans.
    rewrite Hans. intros H. inversion H; subst. reflexivity. }
  unfold client_of in Hcl. cbn in Hcl, Hpc, Hposts.
  eexists. split; [reflexivity|]. cbn.
  repeat split; try congruence.
  rewrite Hposts, Hp. reflexivity.
Qed.

Lemma answered_page_resets_error_counter_witness :
  validate_token env_two_pages authenticated =
    (Normal tt, log_clock_read authenticated) /\
  exists st',
    loop_body env_two_pages (mkLocals 1 (VNum 1%Q) 3) authenticated =
      (Normal (mkLocals 2 (VNum (inject_Z 2)) 0, false), st') /\
    all_items st' = [] ++ [temperature 10] /\
    page_calls st' = 1%nat /\
    page_posts st' = [] ++ [request_of (log_clock_read authenticated) 1] /\
    stdout st' = [].
Proof.
  split; [reflexivity|].
  exact (answered_page_resets_error_counter env_two_pages
           (mkLocals 1 (VNum 1%Q) 3) authenticated
           (log_clock_read authenticated) _ _ _ _
           eq_refl eq_refl eq_refl eq_refl).
Defined.

(** X11.  When a pass yields no items (a failed page or an empty one) and
    that brings the error counter to the ceiling, the loop stops there,
    whatever total the page reported: nothing more is fetched, and the
    last two lines printed are the page failure and the too-many-errors
    notice. *)
Theorem error_ceiling_stops_pagination (env : Env) (fuel : nat)
    (ls : locals) (st st1 : state) (items total : value) :
  page_le (current_page ls) (total_pages ls) = Normal true ->
  MAX_ERROR <= error_counter ls + 1 ->
  get_page env (current_page ls) 3 st = (Normal (Some (items, total)), st1) ->
  truthy items = false ->
  while_loop env (S fuel) ls st =
    Some (Normal (mkLocals (current_page ls + 1) total (error_counter ls + 1)),
          log_print TooManyErrors
            (log_print (FailedToGetPage (current_page ls)) st1)).
Proof.
  intros Hc Hec Hg Hf.
  cbn [while_loop]. rewrite Hc, loop_body_unfold, Hg, Hf.
  apply Z.leb_le in Hec. rewrite Hec. reflexivity.
Qed.

Lemma error_ceiling_stops_pagination_witness :
  page_le 5 (VNum (inject_Z 6)) = Normal true /\
  MAX_ERROR <= 4 + 1 /\
  truthy (VList []) = false /\
  while_loop env_six_empty 9 (mkLocals 5 (VNum (inject_Z 6)) 4)
    authenticated =
    Some (Normal (mkLocals 6 (VNum (inject_Z 6)) 5),
          log_print TooManyErrors
            (log_print (FailedToGetPage 5)
               (snd (get_page env_six_empty 5 3 authenticated)))).
Proof.
  split; [reflexivity|]. split; [unfold MAX_ERROR; lia|].
  split; [reflexivity|].
  exact (error_ceiling_stops_pagination env_six_empty 8
           (mkLocals 5 (VNum (inject_Z 6)) 4) authenticated
           (snd (get_page env_six_empty 5 3 authenticated))
           (VList []) (VNum (inject_Z 6))
           eq_refl ltac:(unfold MAX_ERROR; cbn; lia) eq_refl eq_refl).
Defined.

(** X12.  However [run] ends (normally or by an exception), between its
    start and its end it has made at most one authentication exchange
    more than it has called [get_page], at most three page requests and
    at most two sleeps per call of [get_page], and it has dropped nothing
    of what the client had collected before: the old items are a prefix
    of the new ones. *)
Theorem run_effort_is_bounded (env : Env) (fuel : nat) (st : state)
    (r : res unit) (st' : state) :
  run env fuel st = Some (r, st') ->
  (page_calls st <= page_calls st')%nat /\
  (auth_posts st' + page_calls st <=
   auth_posts st + 1 + page_calls st')%nat /\
  (List.length (page_posts st') + 3 * page_calls st <=
   List.length (page_posts st) + 3 * page_calls st')%nat /\
  (sleeps st' + 2 * page_calls st <= sleeps st + 2 * page_calls st')%nat /\
  exists l, all_items st' = all_items st ++ l.
Proof.
  unfold run, run_pagination. intros H.
  pose proof (get_token_frame env st) as F. cbn zeta in F.
  destruct F as (Fi & Fp & Fc & Fs & Fa & _).
  destruct (get_token env st) as [[[]|e] st0]; cbn [snd] in *.
  - destruct (while_loop env fuel _ st0) as [[r1 st1]|] eqn:E;
      [|discriminate].
    pose proof (while_loop_relation env effort_within effort_within_refl
                  effort_within_trans (loop_body_effort env)
                  fuel _ st0 r1 st1 E) as (G1 & G2 & G3 & G4 & G5 & l & Gl).
    assert (Hend : effort_within st1 st' /\ page_calls st' = page_calls st1
                   /\ auth_posts st' = auth_posts st1).
    { destruct r1 as [ls|e1].
      - pose proof (report_frame st1) as R. cbn zeta in R.
        destruct R as (Rc & Ra & Rp & Rs & Rpc).
        inversion H as [H'].
        assert (Hst : st' = snd (report st1)) by (rewrite H'; reflexivity).
        subst st'. unfold client_of in Rc.
        split; [|split; congruence].
        unfold effort_within. rewrite Ra, Rp, Rs, Rpc.
        repeat split; try lia.
        exists []. rewrite app_nil_r. congruence.
      - inversion H; subst. split; [apply effort_within_refl | auto]. }
    destruct Hend as ((K1 & K2 & K3 & K4 & K5 & m & Km) & Kc & Ka).
    rewrite Fp in G4.
    repeat split; try lia.
    exists (l ++ m). rewrite Km, Gl, Fi, app_assoc. reflexivity.
  - inversion H; subst. rewrite Fp. repeat split; try lia.
    exists []. rewrite app_nil_r. exact Fi.
Qed.

Lemma run_effort_is_bounded_witness :
  exists st',
    run env_flaky 5 holding_two = Some (Normal tt, st') /\
    (page_calls holding_two <= page_calls st')%nat /\
    (auth_posts st' + page_calls holding_two <=
     auth_posts holding_two + 1 + page_calls st')%nat /\
    (List.length (page_posts st') + 3 * page_calls holding_two <=
     List.length (page_posts holding_two) + 3 * page_calls st')%nat /\
    (sleeps st' + 2 * page_calls holding_two <=
     sleeps holding_two + 2 * page_calls st')%nat /\
    exists l, all_items st' = all_items holding_two ++ l.
Proof.
  eexists. split; [vm_compute; reflexivity|].
  eapply (run_effort_is_bounded env_flaky 5 holding_two).
  vm_compute. reflexivity.
Defined.

(** X13.  When the first [get_token] and the loop of [run] end normally
    with [current_page = n + 1], [get_page] has been called exactly [n]
    times and the page requests made are, in this order, a block of one to
    three requests for page 1, then such a block for page 2, and so on up
    to page [n]: every page from 1 to [n] was fetched by exactly one call,
    none was skipped and none was returned to.  The error counter ends
    between 0 and the ceiling. *)
Theorem run_pagination_fetches_each_page_once (env : Env) (fuel : nat)
    (st : state) (ls : locals) (st' : state) :
  run_pagination env fuel st = Some (Normal ls, st') ->
  exists ks : list nat,
    Z.of_nat (List.length ks) = current_page ls - 1 /\
    Forall (fun k => (1 <= k <= 3)%nat) ks /\
    page_calls st' = (page_calls st + List.length ks)%nat /\
    map rq_page (page_posts st') =
      map rq_page (page_posts st) ++ page_blocks 1 ks /\
    0 <= error_counter ls <= MAX_ERROR.
Proof.
  unfold run_pagination. intros H.
  pose proof (get_token_frame env st) as F. cbn zeta in F.
  destruct F as (_ & Fp & Fc & _).
  destruct (get_token env st) as [[[]|e] st0]; cbn [snd] in *;
    [|discriminate].
  destruct (while_loop_blocks env fuel _ st0 ls st' H)
    as (ks & Hlen & Hks & Hcalls & Hposts).
  destruct (while_loop_accounts env fuel _ st0 ls st' H) as (_ & _ & Hec).
  { cbn. unfold MAX_ERROR. lia. }
  exists ks. cbn in Hlen, Hposts. rewrite Hcalls, Hposts, Fc, Fp.
  repeat split; auto; lia.
Qed.

Lemma run_pagination_fetches_each_page_once_witness :
  exists ls st',
    run_pagination env_page2_down 4 init = Some (Normal ls, st') /\
    current_page ls = 3 /\
    exists ks : list nat,
      Z.of_nat (List.length ks) = current_page ls - 1 /\
      Forall (fun k => (1 <= k <= 3)%nat) ks /\
      page_calls st' = (page_calls init + List.length ks)%nat /\
      map rq_page (page_posts st') =
        map rq_page (page_posts init) ++ page_blocks 1 ks /\
      0 <= error_counter ls <= MAX_ERROR.
Proof.
  eexists _, _. split; [vm_compute; reflexivity|].
  split; [reflexivity|].
  eapply (run_pagination_fetches_each_page_once env_page2_down 4 init).
  vm_compute. reflexivity.
Defined.

(** X14.  If some collected item has no temperature that is a number (it
    is not a dict, it lacks the key [temperature_noon_c], or the value
    under the key is not a number), the averaging raises: [report] leaves
    by an exception before printing anything, not even the city, and the
    state is as it was. *)
Theorem report_raises_on_unusable_item (st : state) :
  forallb has_temperature (all_items st) = false ->
  exists e, report st = (Raise e, st).
Proof.
  intros E. unfold report. unfold_monad.
  destruct (all_items st) as [|item rest]; [discriminate|].
  destruct (sum_temperatures_raises (item :: rest) E 0%Q) as (e & ->).
  eauto.
Qed.

Lemma report_raises_on_unusable_item_witness :
  forallb has_temperature (all_items holding_bad_item) = false /\
  exists e, report holding_bad_item = (Raise e, holding_bad_item).
Proof.
  split; [reflexivity|].
  exact (report_raises_on_unusable_item holding_bad_item eq_refl).
Defined.

(** X17.  When [report] returns normally it has printed exactly two
    lines: the city as the client holds it, then either the average or the
    no-data notice; the notice appears exactly when nothing was
    collected. *)
Theorem report_prints_city_then_result (st : state) :
  fst (report st) = Normal tt ->
  exists m,
    stdout (snd (report st)) = stdout st ++ [City (city st); m] /\
    (m = NoDataReceived <-> all_items st = []) /\
    ((exists s, m = AverageTemperature s) <-> all_items st <> []).
Proof.
  unfold report. unfold_monad.
  destruct (all_items st) as [|item rest] eqn:E;
    cbn -[sum_temperatures format_3f].
  - intros _. exists NoDataReceived. rewrite <- app_assoc.
    repeat split; auto; try discriminate.
    + intros (s & H). discriminate.
    + intros H. contradiction.
  - destruct (sum_temperatures 0 (item :: rest)) as [total|e];
      cbn -[sum_temperatures format_3f]; [|discriminate].
    intros _. eexists. rewrite <- app_assoc.
    repeat split; auto; try discriminate. eauto.
Qed.

Lemma report_prints_city_then_result_witness :
  fst (report holding_two) = Normal tt /\
  exists m,
    stdout (snd (report holding_two)) =
      stdout holding_two ++ [City (VStr "Haifa"); m] /\
    (m = NoDataReceived <-> all_items holding_two = []) /\
    ((exists s, m = AverageTemperature s) <-> all_items holding_two <> []).
Proof.
  split; [reflexivity|].
  exact (report_prints_city_then_result holding_two eq_refl).
Defined.

(** X18.  When the first [get_token] and the loop of [run] end normally,
    the page requests made meanwhile ask for pages in non-decreasing
    order, and only for pages from 1 up to the page before the final
    [current_page]: the run never goes back to a page and never asks for a
    page it has not reached. *)
Theorem run_pagination_requests_in_order (env : Env) (fuel : nat)
    (st : state) (ls : locals) (st' : state) :
  run_pagination env fuel st = Some (Normal ls, st') ->
  exists new,
    page_posts st' = page_posts st ++ new /\
    StronglySorted Z.le (map rq_page new) /\
    Forall (fun rq => 1 <= rq_page rq < current_page ls) new.
Proof.
  unfold run_pagination. intros H.
  pose proof (get_token_frame env st) as F. cbn zeta in F.
  destruct F as (_ & Fp & _).
  destruct (get_token env st) as [[[]|e] st0]; cbn [snd] in *;
    [|discriminate].
  destruct (while_loop_requests env fuel _ st0 ls st' H)
    as (_ & new & Hp & Hs & Hall).
  exists new. rewrite Hp, Fp. auto.
Qed.

Lemma run_pagination_requests_in_order_witness :
  exists ls st',
    run_pagination env_page2_down 4 init = Some (Normal ls, st') /\
    map rq_page (page_posts st') = [1; 2; 2; 2] /\
    exists new,
      page_posts st' = page_posts init ++ new /\
      StronglySorted Z.le (map rq_page new) /\
      Forall (fun rq => 1 <= rq_page rq < current_page ls) new.
Proof.
  eexists _, _. split; [vm_compute; reflexivity|].
  split; [reflexivity|].
  eapply (run_pagination_requests_in_order env_page2_down 4 init).
  vm_compute. reflexivity.
Defined.
